(** * Tourism-flow prediction service: correction engine, categorizer,
      feature alignment and the two prediction endpoints of [app.py].

    Python floats are IEEE-754 binary64 numbers and are modelled by Rocq's
    primitive floats, Python integers by [Z], JSON documents by [pyval].
    Code that can raise returns a [result]; a [try ... except Exception]
    block is a match on that result. *)

From Stdlib Require Import ZArith List String Ascii Bool Lia.
From Stdlib Require Import DecimalString.
From Stdlib Require Import Floats.
Import ListNotations.

Set Warnings "-inexact-float,-register-all".

Local Open Scope string_scope.

(** ** Python values and exceptions *)

Module Py.

(** Values produced by [json.load] / [request.json], and the values the
    handlers build from them.  A dict keeps its insertion order; its keys
    are strings, as in every JSON object. *)
Inductive pyval : Type :=
| PNone
| PBool (b : bool)
| PInt (z : Z)
| PFloat (f : float)
| PStr (s : string)
| PList (l : list pyval)
| PDict (d : list (string * pyval)).

(** The exceptions the modelled code can meet; all derive from
    [Exception].  [External] stands for an exception raised by a
    collaborator (the model, pandas, Flask). *)
Inductive exn : Type :=
| AttributeError (ty attr : string)
| TypeError (msg : string)
| KeyError (key : string)
| OverflowError (msg : string)
| External (msg : string).

(** [str(e)]. *)
Definition str_exn (e : exn) : string :=
  match e with
  | AttributeError ty attr =>
      "'" ++ ty ++ "' object has no attribute '" ++ attr ++ "'"
  | TypeError msg => msg
  | KeyError key => "'" ++ key ++ "'"
  | OverflowError msg => msg
  | External msg => msg
  end.

Inductive result (A : Type) : Type :=
| Ok (a : A)
| Raise (e : exn).
Arguments Ok {A} a.
Arguments Raise {A} e.

Definition bind {A B} (m : result A) (k : A -> result B) : result B :=
  match m with
  | Ok a => k a
  | Raise e => Raise e
  end.

Definition type_name (v : pyval) : string :=
  match v with
  | PNone => "NoneType"
  | PBool _ => "bool"
  | PInt _ => "int"
  | PFloat _ => "float"
  | PStr _ => "str"
  | PList _ => "list"
  | PDict _ => "dict"
  end.

(** *** Dicts as ordered association lists *)

Fixpoint lookup {V} (k : string) (d : list (string * V)) : option V :=
  match d with
  | [] => None
  | (k', v) :: d' => if String.eqb k k' then Some v else lookup k d'
  end.

Definition has_key {V} (k : string) (d : list (string * V)) : bool :=
  match lookup k d with Some _ => true | None => false end.

(** [d[k] = v]: an existing key keeps its position, a new key goes last. *)
Fixpoint dict_set {V} (k : string) (v : V) (d : list (string * V))
  : list (string * V) :=
  match d with
  | [] => [(k, v)]
  | (k', v') :: d' =>
      if String.eqb k k' then (k', v) :: d' else (k', v') :: dict_set k v d'
  end.

(** *** Floats *)

(** [float(z)]: the nearest double, ties to even; [None] when the integer
    is too large for a double. *)
Definition float_of_Z (z : Z) : option float :=
  match binary_normalize prec emax z 0 false with
  | S754_infinity _ => None
  | sf => Some (SF2Prim sf)
  end.

(** [x *= v] for a float [x]: ints and bools are converted to float, any
    other operand is a type error. *)
Definition mul_float (x : float) (v : pyval) : result float :=
  match v with
  | PFloat f => Ok (x * f)%float
  | PInt z =>
      match float_of_Z z with
      | Some f => Ok (x * f)%float
      | None => Raise (OverflowError "int too large to convert to float")
      end
  | PBool b => Ok (x * (if b then 1 else 0))%float
  | PStr _ | PList _ =>
      Raise (TypeError "can't multiply sequence by non-int of type 'float'")
  | PNone | PDict _ =>
      Raise (TypeError ("unsupported operand type(s) for *=: 'float' and '"
                        ++ type_name v ++ "'"))
  end.

(** The float a numeric value stands for in a product, when it has one. *)
Definition as_float (v : pyval) : option float :=
  match v with
  | PFloat f => Some f
  | PInt z => float_of_Z z
  | PBool b => Some (if b then 1 else 0)%float
  | _ => None
  end.

(** Truth value of an object, as tested by [if v:] and [not v]. *)
Definition truthy (v : pyval) : bool :=
  match v with
  | PNone => false
  | PBool b => b
  | PInt z => negb (Z.eqb z 0)
  | PFloat f => negb (PrimFloat.eqb f 0)
  | PStr s => negb (String.eqb s "")
  | PList l => match l with [] => false | _ => true end
  | PDict d => match d with [] => false | _ => true end
  end.

(** *** Subscripts, membership and [.get] *)

(** [v[k]] for a string [k]. *)
Definition getitem (v : pyval) (k : string) : result pyval :=
  match v with
  | PDict d =>
      match lookup k d with
      | Some x => Ok x
      | None => Raise (KeyError k)
      end
  | PList _ => Raise (TypeError "list indices must be integers or slices, not str")
  | PStr _ => Raise (TypeError "string indices must be integers, not 'str'")
  | _ => Raise (TypeError ("'" ++ type_name v ++ "' object is not subscriptable"))
  end.

Definition is_substring (s t : string) : bool :=
  match String.index 0 s t with Some _ => true | None => false end.

Definition is_PStr (s : string) (v : pyval) : bool :=
  match v with PStr t => String.eqb s t | _ => false end.

(** [k in v] for a string [k]: key of a dict, element of a list, substring
    of a string. *)
Definition contains (k : string) (v : pyval) : result bool :=
  match v with
  | PDict d => Ok (has_key k d)
  | PList l => Ok (existsb (is_PStr k) l)
  | PStr t => Ok (is_substring k t)
  | _ => Raise (TypeError ("argument of type '" ++ type_name v ++ "' is not iterable"))
  end.

(** [v.get(k, default)]. *)
Definition get (v : pyval) (k : string) (default : pyval) : result pyval :=
  match v with
  | PDict d => Ok (match lookup k d with Some x => x | None => default end)
  | _ => Raise (AttributeError (type_name v) "get")
  end.

(** What the interpreter provides and this development does not spell
    out: upper-casing of Unicode text, and the [str] of floats, lists and
    dicts. *)
Class Runtime : Type := {
  str_upper : string -> string;
  repr_other : pyval -> string
}.

Section WithRuntime.
Context {rt : Runtime}.

(** [v.upper()]: only strings have the method. *)
Definition upper (v : pyval) : result string :=
  match v with
  | PStr s => Ok (str_upper s)
  | _ => Raise (AttributeError (type_name v) "upper")
  end.

(** [str(v)].  The interpreter's limit on the conversion of very long
    ints to text (4300 digits unless reconfigured) is not modelled: no
    such int comes out of [request.json], which is the only source of
    the values this is applied to. *)
Definition str (v : pyval) : string :=
  match v with
  | PNone => "None"
  | PBool true => "True"
  | PBool false => "False"
  | PInt z => NilZero.string_of_int (Z.to_int z)
  | PStr s => s
  | _ => repr_other v
  end.

End WithRuntime.

End Py.

Import Py.

Declare Scope py_scope.
Notation "x <- m ;; k" := (bind m (fun x => k))
  (at level 61, m at next level, right associativity) : py_scope.
Notation "' p <- m ;; k" := (bind m (fun x => match x with p => k end))
  (at level 61, p pattern, m at next level, right associativity) : py_scope.
Local Open Scope py_scope.

(** ** Rounding to a number of decimals *)

Module Round.

(** The integer nearest to [num / den], ties to the even one
    ([0 <= num], [0 < den]). *)
Definition nearest_even (num den : Z) : Z :=
  let q := (num / den)%Z in
  match (2 * (num mod den) ?= den)%Z with
  | Lt => q
  | Gt => (q + 1)%Z
  | Eq => if Z.even q then q else (q + 1)%Z
  end.

(** The double nearest to [n / p], with the sign [s]. *)
Definition nearest_double (s : bool) (n p : positive) : float :=
  SF2Prim (SFdiv prec emax (S754_finite s n 0) (S754_finite false p 0)).

(** [round(x, ndigits)] on a float, for [0 <= ndigits]: infinities, NaN
    and zeros round to themselves; otherwise the exact value of [x] is
    rounded to the nearest multiple of [10 ** -ndigits], ties to the even
    multiple, and the result is the double nearest to that decimal. *)
Definition round (x : float) (ndigits : nat) : float :=
  match Prim2SF x with
  | S754_finite s m e =>
      let p := Z.to_pos (10 ^ Z.of_nat ndigits) in
      let num := (Zpos m * Zpos p * 2 ^ Z.max e 0)%Z in
      let den := (2 ^ Z.max (- e) 0)%Z in
      match nearest_even num den with
      | Zpos n => nearest_double s n p
      | _ => SF2Prim (S754_zero s)
      end
  | _ => x
  end.

End Round.

(** ** The application *)

(** The trained model: [float(modelo.predict(df_input)[0])] on a one-row
    frame, which either raises or yields a float. *)
Definition DataFrame : Type := list (string * pyval).
Definition Predictor : Type := DataFrame -> result float.

(** [features_modelo.json], taken to be well formed (an object whose
    ['features'] entry is a list of strings): the code reads that entry
    only, the ordered names of the columns the model was trained on. *)
Record FeaturesInfo : Type := { features : list string }.

(** The three module-level globals, [None] until [cargar_modelo] has
    loaded them ([patrones] is the loaded JSON document, [PNone] when it
    is not loaded). *)
Record Env : Type := {
  modelo : option Predictor;
  features_info : option FeaturesInfo;
  patrones : pyval
}.

(** What a handler reads of a request: the outcome of [request.json] and
    the clock, [datetime.now().isoformat()]. *)
Record Request : Type := {
  json : result pyval;
  now : string
}.

(** [jsonify(body), status]. *)
Record Response : Type := {
  status : Z;
  body : list (string * pyval)
}.

Record CorrectionResult : Type := {
  prediccion_corregida : float;
  factores_aplicados : list (string * pyval);
  factor_total : float
}.

Record CategoryBand : Type := {
  categoria : string;
  emoji : string;
  recomendacion : string
}.

(** *** categorizar_afluencia *)

Definition categorizar_afluencia (afluencia : float) : CategoryBand :=
  if (35 <=? afluencia)%float then
    {| categoria := "MUY ALTA";
       emoji := "🔥🔥🔥";
       recomendacion := "Excelente día para turismo - alta demanda" |}
  else if (25 <=? afluencia)%float then
    {| categoria := "ALTA";
       emoji := "🔥🔥";
       recomendacion := "Muy buen día para actividades turísticas" |}
  else if (15 <=? afluencia)%float then
    {| categoria := "MEDIA";
       emoji := "🔥";
       recomendacion := "Día moderado para turismo" |}
  else
    {| categoria := "BAJA";
       emoji := "❄️";
       recomendacion := "Día tranquilo, menos turismo" |}.

(** *** aplicar_correccion_avanzada *)

Definition factores_estacionales : list (Z * float) :=
  [ (1%Z, 1.1%float); (2%Z, 1.05%float); (3%Z, 0.95%float);
    (4%Z, 0.9%float); (5%Z, 0.9%float); (6%Z, 1.2%float);
    (7%Z, 1.25%float); (8%Z, 1.3%float); (9%Z, 0.9%float);
    (10%Z, 0.95%float); (11%Z, 1.0%float); (12%Z, 1.15%float) ].

(** Whether the looked-up object equals the int key [k] of a dict:
    [True == 1] and [7.0 == 7] (the conversion of [k] is exact for the
    keys of the table above). *)
Definition key_eqb (v : pyval) (k : Z) : bool :=
  match v with
  | PInt z => Z.eqb z k
  | PBool b => Z.eqb (if b then 1 else 0) k
  | PFloat f =>
      match float_of_Z k with
      | Some g => PrimFloat.eqb f g
      | None => false
      end
  | _ => false
  end.

Fixpoint get_int_key (d : list (Z * float)) (v : pyval) (default : float) : float :=
  match d with
  | [] => default
  | (k, x) :: d' => if key_eqb v k then x else get_int_key d' v default
  end.

(** [factores_estacionales.get(mes, 1.0)]: a list or a dict is not
    hashable. *)
Definition get_estacional (mes : pyval) : result float :=
  match mes with
  | PList _ | PDict _ =>
      Raise (TypeError ("unhashable type: '" ++ type_name mes ++ "'"))
  | _ => Ok (get_int_key factores_estacionales mes 1)
  end.

Definition factores_iniciales : list (string * pyval) :=
  [ ("provincia", PFloat 1); ("dia_semana", PFloat 1);
    ("vacaciones", PFloat 1); ("estacional", PFloat 1) ].

Section App.
Context {rt : Runtime}.

(** The state of the [try] block: [factores_aplicados] and
    [factor_total]. *)
Definition Factores : Type := (list (string * pyval) * float)%type.

Definition correccion_provincia (patrones provincia : pyval) (st : Factores)
  : result Factores :=
  let '(factores_aplicados, factor_total) := st in
  provincia_upper <- upper provincia ;;
  tabla <- getitem patrones "PATRONES_PROVINCIA" ;;
  presente <- contains provincia_upper tabla ;;
  if presente : bool then
    tabla <- getitem patrones "PATRONES_PROVINCIA" ;;
    entrada <- getitem tabla provincia_upper ;;
    factor_provincia <- get entrada "factor_base" (PFloat 1) ;;
    factor_total <- mul_float factor_total factor_provincia ;;
    Ok (dict_set "provincia" factor_provincia factores_aplicados, factor_total)
  else Ok st.

Definition correccion_dia_semana (patrones dia_semana : pyval) (st : Factores)
  : result Factores :=
  let '(factores_aplicados, factor_total) := st in
  tabla <- getitem patrones "PATRONES_DIA_SEMANA" ;;
  presente <- contains (str dia_semana) tabla ;;
  if presente : bool then
    tabla <- getitem patrones "PATRONES_DIA_SEMANA" ;;
    entrada <- getitem tabla (str dia_semana) ;;
    factor_dia <- get entrada "factor" (PFloat 1) ;;
    factor_total <- mul_float factor_total factor_dia ;;
    Ok (dict_set "dia_semana" factor_dia factores_aplicados, factor_total)
  else Ok st.

Definition correccion_vacaciones (es_vacaciones : pyval) (st : Factores)
  : Factores :=
  let '(factores_aplicados, factor_total) := st in
  if truthy es_vacaciones then
    let factor_vacaciones := 1.15%float in
    (dict_set "vacaciones" (PFloat factor_vacaciones) factores_aplicados,
     (factor_total * factor_vacaciones)%float)
  else st.

Definition correccion_estacional (mes : pyval) (st : Factores)
  : result Factores :=
  let '(factores_aplicados, factor_total) := st in
  factor_estacional <- get_estacional mes ;;
  Ok (dict_set "estacional" (PFloat factor_estacional) factores_aplicados,
      (factor_total * factor_estacional)%float).

(** The body of the [try] block. *)
Definition correccion (patrones : pyval) (prediccion_base : float)
    (provincia dia_semana es_vacaciones mes : pyval) : result CorrectionResult :=
  st <- correccion_provincia patrones provincia (factores_iniciales, 1%float) ;;
  st <- correccion_dia_semana patrones dia_semana st ;;
  st <- correccion_estacional mes (correccion_vacaciones es_vacaciones st) ;;
  let '(factores_aplicados, factor_total) := st in
  Ok {| prediccion_corregida := (prediccion_base * factor_total)%float;
        factores_aplicados := factores_aplicados;
        factor_total := factor_total |}.

(** The [except Exception] branch (its [print] goes to the log and is
    left out). *)
Definition correccion_fallida (prediccion_base : float) (e : exn)
  : CorrectionResult :=
  {| prediccion_corregida := prediccion_base;
     factores_aplicados := [("error", PStr (str_exn e))];
     factor_total := 1 |}.

Definition aplicar_correccion_avanzada (patrones : pyval)
    (prediccion_base : float) (provincia dia_semana es_vacaciones mes : pyval)
  : CorrectionResult :=
  match correccion patrones prediccion_base provincia dia_semana
          es_vacaciones mes with
  | Ok r => r
  | Raise e => correccion_fallida prediccion_base e
  end.

(** *** Feature alignment *)

(** [pd.DataFrame([data])]: one row, whose columns are the keys of
    [data].  When [data] is not a dict the columns of the frame are
    labelled by integers; no feature name equals such a label and the
    selection below drops those columns, so they are left out here. *)
Definition data_frame (data : pyval) : DataFrame :=
  match data with
  | PDict d => d
  | _ => []
  end.

(** [for feature in features: if feature not in df.columns: df[feature] = 0] *)
Definition completar (features : list string) (df_input : DataFrame) : DataFrame :=
  fold_left
    (fun df feature =>
       if has_key feature df then df else dict_set feature (PInt 0) df)
    features df_input.

(** [df_input[features]]: the listed columns, in the order of the list;
    a missing column is a [KeyError]. *)
Fixpoint seleccionar (features : list string) (df_input : DataFrame)
  : result DataFrame :=
  match features with
  | [] => Ok []
  | feature :: rest =>
      match lookup feature df_input with
      | Some v => cols <- seleccionar rest df_input ;; Ok ((feature, v) :: cols)
      | None => Raise (KeyError feature)
      end
  end.

Definition alinear (features : list string) (data : pyval) : result DataFrame :=
  seleccionar features (completar features (data_frame data)).

(** [features_info['features']] and [modelo.predict(df_input)] on the
    globals, which may still be [None]. *)
Definition features_de (env : Env) : result (list string) :=
  match features_info env with
  | Some info => Ok (features info)
  | None => Raise (TypeError "'NoneType' object is not subscriptable")
  end.

Definition predecir (env : Env) (df_input : DataFrame) : result float :=
  match modelo env with
  | Some m => m df_input
  | None => Raise (AttributeError "NoneType" "predict")
  end.

Definition is_none {A} (o : option A) : bool :=
  match o with
  | None => true
  | Some _ => false
  end.

(** *** POST /predict *)

(** The dict [respuesta] of a successful prediction. *)
Definition respuesta (afluencia_final prediccion_base : float)
    (categoria_info : CategoryBand) (provincia_upper : string)
    (dia_semana mes es_vacaciones : pyval)
    (resultado_correccion : CorrectionResult) (timestamp : string)
  : list (string * pyval) :=
  [ ("prediccion", PDict
       [ ("afluencia", PFloat (Round.round afluencia_final 2));
         ("prediccion_base", PFloat (Round.round prediccion_base 2));
         ("categoria", PStr (categoria categoria_info));
         ("emoji", PStr (emoji categoria_info));
         ("recomendacion", PStr (recomendacion categoria_info)) ]);
    ("detalles", PDict
       [ ("provincia", PStr provincia_upper);
         ("dia_semana", dia_semana);
         ("mes", mes);
         ("es_vacaciones", PBool (truthy es_vacaciones));
         ("factores_aplicados",
          PDict (factores_aplicados resultado_correccion));
         ("factor_total",
          PFloat (Round.round (factor_total resultado_correccion) 3)) ]);
    ("metadata", PDict
       [ ("timestamp", PStr timestamp);
         ("modelo", PStr "RandomForest - Turismo Ecuador v1.0");
         ("status", PStr "success") ]) ].

Definition predict_try (env : Env) (req : Request) : result Response :=
  if is_none (modelo env) || is_none (features_info env) then
    Ok {| status := 500;
          body := [("error", PStr "Modelo no cargado correctamente")] |}
  else
    data <- json req ;;
    if negb (truthy data) then
      Ok {| status := 400; body := [("error", PStr "No se enviaron datos")] |}
    else
      features <- features_de env ;;
      df_input <- alinear features data ;;
      prediccion_base <- predecir env df_input ;;
      provincia <- get data "provincia" (PStr "PICHINCHA") ;;
      dia_semana <- get data "dia_semana" (PInt 1) ;;
      es_vacaciones <- get data "Es_Vacaciones" (PInt 0) ;;
      mes <- get data "Mes" (PInt 1) ;;
      let resultado_correccion :=
        aplicar_correccion_avanzada (patrones env) prediccion_base
          provincia dia_semana es_vacaciones mes in
      let afluencia_final := prediccion_corregida resultado_correccion in
      let categoria_info := categorizar_afluencia afluencia_final in
      provincia_upper <- upper provincia ;;
      Ok {| status := 200;
            body := respuesta afluencia_final prediccion_base categoria_info
                      provincia_upper dia_semana mes es_vacaciones
                      resultado_correccion (now req) |}.

Definition predict (env : Env) (req : Request) : Response :=
  match predict_try env req with
  | Ok r => r
  | Raise e =>
      {| status := 400;
         body := [ ("error", PStr ("Error en predicción: " ++ str_exn e));
                   ("status", PStr "error");
                   ("timestamp", PStr (now req)) ] |}
  end.

(** *** POST /predict/simple *)

Definition predict_simple_try (env : Env) (req : Request) : result Response :=
  data <- json req ;;
  if negb (truthy data) then
    Ok {| status := 400; body := [("error", PStr "No data provided")] |}
  else
    features <- features_de env ;;
    df_input <- alinear features data ;;
    prediccion <- predecir env df_input ;;
    provincia <- get data "provincia" (PStr "PICHINCHA") ;;
    dia_semana <- get data "dia_semana" (PInt 1) ;;
    mes <- get data "Mes" (PInt 1) ;;
    let resultado :=
      aplicar_correccion_avanzada (patrones env) prediccion
        provincia dia_semana (PInt 0) mes in
    let afluencia := Round.round (prediccion_corregida resultado) 2 in
    Ok {| status := 200;
          body := [ ("afluencia", PFloat afluencia);
                    ("categoria",
                     PStr (categoria (categorizar_afluencia afluencia)));
                    ("success", PBool true) ] |}.

Definition predict_simple (env : Env) (req : Request) : Response :=
  match predict_simple_try env req with
  | Ok r => r
  | Raise e =>
      {| status := 400;
         body := [("error", PStr (str_exn e)); ("success", PBool false)] |}
  end.

End App.

(** *** cargar_modelo, GET /health and GET /features *)

(** What the three loads of [cargar_modelo] give, in the order they are
    made: each either raises or yields the loaded object ([None] is what
    [json.load] yields for the document [null]). *)
Record Recursos : Type := {
  cargar_pkl : result (option Predictor);
  cargar_features : result (option FeaturesInfo);
  cargar_patrones : result pyval
}.

(** [cargar_modelo()]: the globals are assigned one after the other
    inside the [try] block, so a load that raises leaves the globals
    assigned before it in place and the later ones untouched.  The
    function returns [True] when the three loads succeeded (the [print]
    calls go to the log and are left out). *)
Definition cargar_modelo (r : Recursos) (env : Env) : bool * Env :=
  match cargar_pkl r with
  | Raise _ => (false, env)
  | Ok m =>
      let env := {| modelo := m;
                    features_info := features_info env;
                    patrones := patrones env |} in
      match cargar_features r with
      | Raise _ => (false, env)
      | Ok info =>
          let env := {| modelo := modelo env;
                        features_info := info;
                        patrones := patrones env |} in
          match cargar_patrones r with
          | Raise _ => (false, env)
          | Ok p =>
              (true, {| modelo := modelo env;
                        features_info := features_info env;
                        patrones := p |})
          end
      end
  end.

Definition is_PNone (v : pyval) : bool :=
  match v with
  | PNone => true
  | _ => false
  end.

(** GET /health. *)
Definition health (env : Env) (req : Request) : Response :=
  let modelo_cargado := negb (is_none (modelo env)) in
  let features_cargadas := negb (is_none (features_info env)) in
  let patrones_cargados := negb (is_PNone (patrones env)) in
  {| status := 200;
     body :=
       [ ("status",
          PStr (if forallb (fun b : bool => b)
                     [modelo_cargado; features_cargadas; patrones_cargados]
                then "healthy" else "error"));
         ("modelo_cargado", PBool modelo_cargado);
         ("features_cargadas", PBool features_cargadas);
         ("patrones_cargados", PBool patrones_cargados);
         ("timestamp", PStr (now req)) ] |}.

(** GET /features: the loaded schema document as it is, or a 500 with an
    [error] field. *)
Record FeaturesResponse : Type := {
  features_status : Z;
  features_body : FeaturesInfo + list (string * pyval)
}.

Definition get_features (env : Env) : FeaturesResponse :=
  match features_info env with
  | None =>
      {| features_status := 500;
         features_body := inr [("error", PStr "Features no cargadas")] |}
  | Some info => {| features_status := 200; features_body := inl info |}
  end.

(** ** Definitions used to state the properties *)

(** A table entry the engine can use: an object whose factor, when it
    has one, is a number that converts to a float. *)
Definition entrada_bien_formada (clave : string) (entrada : pyval) : bool :=
  match entrada with
  | PDict d =>
      match lookup clave d with
      | Some v => match as_float v with Some _ => true | None => false end
      | None => true
      end
  | _ => false
  end.

Definition tabla_bien_formada (clave : string) (tabla : pyval) : bool :=
  match tabla with
  | PDict d => forallb (fun kv => entrada_bien_formada clave (snd kv)) d
  | _ => false
  end.

(** A correction document with both tables, every entry of which is
    well formed. *)
Definition patrones_bien_formados (pat : pyval) : bool :=
  match pat with
  | PDict d =>
      match lookup "PATRONES_PROVINCIA" d, lookup "PATRONES_DIA_SEMANA" d with
      | Some tp, Some td =>
          tabla_bien_formada "factor_base" tp && tabla_bien_formada "factor" td
      | _, _ => false
      end
  | _ => false
  end.

(** The values whose [str] the interpreter computes whatever its
    settings: an int of more than 4300 digits is refused by the limit on
    the conversion of ints to text, and so may be a list or a dict that
    holds one. *)
Definition str_sin_limite (v : pyval) : bool :=
  match v with
  | PInt z => (Z.abs z <? 10 ^ 4300)%Z
  | PList _ | PDict _ => false
  | _ => true
  end.

Definition hashable (v : pyval) : bool :=
  match v with
  | PList _ | PDict _ => false
  | _ => true
  end.

(** The fields the handlers read with a default, and their defaults. *)
Definition campos_por_defecto : list (string * pyval) :=
  [ ("provincia", PStr "PICHINCHA"); ("dia_semana", PInt 1);
    ("Es_Vacaciones", PInt 0); ("Mes", PInt 1) ].

(** Loads where the correction document cannot be read. *)
Definition recursos_sin_patrones : Recursos :=
  {| cargar_pkl := Ok (Some (fun _ : DataFrame => Ok 20%float));
     cargar_features := Ok (Some {| features := ["Mes"; "temperatura"] |});
     cargar_patrones := Raise (External "patrones_correccion.json") |}.

(** The order of spec floats as a lexicographic order on integer
    triples: class (infinities, finite by sign, zero), exponent and
    mantissa.  NaN has no key. *)
Definition key (x : spec_float) : option (Z * Z * Z) :=
  match x with
  | S754_nan => None
  | S754_infinity s => Some (if s then (-2)%Z else 2%Z, 0%Z, 0%Z)
  | S754_zero _ => Some (0%Z, 0%Z, 0%Z)
  | S754_finite s m e =>
      Some (if s then ((-1)%Z, (- e)%Z, Zneg m) else (1%Z, e, Zpos m))
  end.

Definition lex_compare (a b : Z * Z * Z) : comparison :=
  let '(a1, a2, a3) := a in
  let '(b1, b2, b3) := b in
  match (a1 ?= b1)%Z with
  | Eq => match (a2 ?= b2)%Z with Eq => (a3 ?= b3)%Z | c => c end
  | c => c
  end.

Definition lex_lt (a b : Z * Z * Z) : Prop :=
  let '(a1, a2, a3) := a in
  let '(b1, b2, b3) := b in
  (a1 < b1 \/ (a1 = b1 /\ (a2 < b2 \/ (a2 = b2 /\ a3 < b3))))%Z.

Definition lex_le (a b : Z * Z * Z) : Prop := lex_lt a b \/ a = b.

(** The four bands, from the lowest to the highest. *)
Definition nivel (categoria : string) : nat :=
  if String.eqb categoria "MUY ALTA" then 3
  else if String.eqb categoria "ALTA" then 2
  else if String.eqb categoria "MEDIA" then 1
  else 0.

(** The seasonal table as the specification words it. *)
Definition estacional_spec (m : Z) : float :=
  if (m =? 1)%Z then 1.1
  else if (m =? 2)%Z then 1.05
  else if (m =? 3)%Z then 0.95
  else if (m =? 4)%Z then 0.9
  else if (m =? 5)%Z then 0.9
  else if (m =? 6)%Z then 1.2
  else if (m =? 7)%Z then 1.25
  else if (m =? 8)%Z then 1.3
  else if (m =? 9)%Z then 0.9
  else if (m =? 10)%Z then 0.95
  else if (m =? 11)%Z then 1.0
  else if (m =? 12)%Z then 1.15
  else 1.0.

(** The holiday factor: 1.15 for a true flag, 1.0 otherwise. *)
Definition factor_vacaciones_de (es_vacaciones : pyval) : float :=
  if truthy es_vacaciones then 1.15%float else 1%float.

(** The value the aligner gives to a feature: the field of the record,
    0 when the record has no such field. *)
Definition valor_alineado (data : pyval) (feature : string) : pyval :=
  match lookup feature (data_frame data) with
  | Some v => v
  | None => PInt 0
  end.

(** A request has an empty or absent body when [request.json] raises or
    yields a false value ([None], an empty object, ...). *)
Definition cuerpo_vacio (req : Request) : Prop :=
  match json req with
  | Ok data => truthy data = false
  | Raise _ => True
  end.

(** *** A concrete runtime and concrete resources *)

Definition ascii_upper (c : ascii) : ascii :=
  let n := nat_of_ascii c in
  if (97 <=? n)%nat && (n <=? 122)%nat then ascii_of_nat (n - 32) else c.

Fixpoint string_upper (s : string) : string :=
  match s with
  | EmptyString => EmptyString
  | String c s' => String (ascii_upper c) (string_upper s')
  end.

(** A runtime for ASCII text: [str_upper] is [str.upper] on ASCII
    strings; the examples below never take the [str] of a float, a list
    or a dict, which is left empty. *)
Definition ascii_runtime : Runtime :=
  {| str_upper := string_upper; repr_other := fun _ => "" |}.

Definition patrones_ejemplo : pyval :=
  PDict
    [ ("PATRONES_PROVINCIA", PDict
         [ ("GUAYAS", PDict [("factor_base", PFloat 1.1)]);
           ("PICHINCHA", PDict [("factor_base", PFloat 1.2)]) ]);
      ("PATRONES_DIA_SEMANA", PDict
         [ ("5", PDict [("factor", PFloat 1.2)]);
           ("6", PDict [("factor", PFloat 1.3)]) ]) ].

(** The same document with a malformed entry for PICHINCHA: a number
    where an object is expected. *)
Definition patrones_malformados : pyval :=
  PDict
    [ ("PATRONES_PROVINCIA", PDict
         [ ("GUAYAS", PDict [("factor_base", PFloat 1.1)]);
           ("PICHINCHA", PFloat 1.2) ]);
      ("PATRONES_DIA_SEMANA", PDict
         [ ("5", PDict [("factor", PFloat 1.2)]);
           ("6", PDict [("factor", PFloat 1.3)]) ]) ].

Definition features_ejemplo : FeaturesInfo :=
  {| features := ["Mes"; "temperatura"; "dia_semana"] |}.

(** A model that predicts the same value for every row. *)
Definition modelo_constante (y : float) : Predictor := fun _ => Ok y.

Definition env_ejemplo (y : float) : Env :=
  {| modelo := Some (modelo_constante y);
     features_info := Some features_ejemplo;
     patrones := patrones_ejemplo |}.

(** The service after a failed [cargar_modelo]. *)
Definition env_sin_cargar : Env :=
  {| modelo := None; features_info := None; patrones := PNone |}.

Definition peticion (data : pyval) : Request :=
  {| json := Ok data; now := "2024-01-01T00:00:00" |}.

(** The service with a malformed correction table. *)
Definition env_malformado : Env :=
  {| modelo := Some (modelo_constante 20);
     features_info := Some features_ejemplo;
     patrones := patrones_malformados |}.

Definition datos_loja : pyval :=
  PDict [("provincia", PStr "Loja"); ("dia_semana", PInt 1); ("Mes", PInt 11)].

Definition datos_temperatura : pyval :=
  PDict [("temperatura", PFloat 21.5)].

(** A field of a section of a response body, as in
    [body['detalles']['factor_total']]. *)
Definition campo (seccion clave : string) (cuerpo : list (string * pyval))
  : option pyval :=
  match lookup seccion cuerpo with
  | Some (PDict d) => lookup clave d
  | _ => None
  end.

(** A run of the engine on the example tables: PICHINCHA (1.2), a
    Friday (1.2), holidays (1.15), July (1.25). *)
Definition resultado_ejemplo : CorrectionResult :=
  aplicar_correccion_avanzada (rt := ascii_runtime) patrones_ejemplo 20
    (PStr "Pichincha") (PInt 5) (PInt 1) (PInt 7).

(** A run where no rule matches: unknown province and weekday, no
    holidays, month 13. *)
Definition resultado_sin_reglas : CorrectionResult :=
  aplicar_correccion_avanzada (rt := ascii_runtime) patrones_ejemplo 20
    (PStr "Loja") (PInt 1) (PInt 0) (PInt 13).

(** ** Facts about binary64 arithmetic *)

Section FloatFacts.

Local Open Scope Z_scope.

Lemma Zdigits2_shift52 (m : positive) :
  Zdigits2 (Zpos (4503599627370496 * m)) = Zpos (digits2_pos m) + 52.
Proof.
  cbn [Pos.mul Zdigits2 digits2_pos].
  repeat rewrite Pos2Z.inj_succ. lia.
Qed.

Lemma shr_shift52 (m : positive) (e : Z) :
  shr {| shr_m := Zpos (4503599627370496 * m); shr_r := false; shr_s := false |} e 52
  = ({| shr_m := Zpos m; shr_r := false; shr_s := false |}, e + 52).
Proof. reflexivity. Qed.

(** Rounding [m * 2^52 * 2^(e - 52)] gives back the valid float
    [m * 2^e]. *)
Lemma round_aux_shift52 (s : bool) (m : positive) (e : Z) :
  bounded prec emax m e = true ->
  binary_round_aux prec emax s (Zpos (4503599627370496 * m)) (e - 52) loc_Exact
  = S754_finite s m e.
Proof.
  intros Hb. unfold bounded, canonical_mantissa in Hb.
  apply andb_prop in Hb. destruct Hb as [Hc He].
  apply Z.eqb_eq in Hc.
  unfold binary_round_aux, shr_fexp.
  rewrite Zdigits2_shift52.
  replace (Zpos (digits2_pos m) + 52 + (e - 52)) with (Zpos (digits2_pos m) + e) by lia.
  rewrite Hc.
  replace (e - (e - 52)) with 52 by lia.
  cbn [shr_record_of_loc].
  rewrite shr_shift52.
  cbn [shr_m loc_of_shr_record round_nearest_even Zdigits2 shr_record_of_loc].
  replace (e - 52 + 52) with e by lia.
  rewrite Hc, Z.sub_diag. cbn [shr shr_m].
  rewrite He. reflexivity.
Qed.

Lemma Prim2SF_one : Prim2SF 1 = S754_finite false 4503599627370496 (-52).
Proof. reflexivity. Qed.

Lemma mul_1_r (x : float) : (x * 1)%float = x.
Proof.
  apply Prim2SF_inj. rewrite mul_spec, Prim2SF_one.
  pose proof (Prim2SF_valid x) as Hv.
  destruct (Prim2SF x) as [s | s | | s m e]; cbn [SF64mul SFmul].
  - now rewrite xorb_false_r.
  - now rewrite xorb_false_r.
  - reflexivity.
  - unfold SF64mul, SFmul. rewrite xorb_false_r, Pos.mul_comm.
    change (e + -52) with (e - 52).
    now apply round_aux_shift52.
Qed.

Lemma mul_1_l (x : float) : (1 * x)%float = x.
Proof.
  apply Prim2SF_inj. rewrite mul_spec, Prim2SF_one.
  pose proof (Prim2SF_valid x) as Hv.
  destruct (Prim2SF x) as [s | s | | s m e]; try reflexivity.
  unfold SF64mul, SFmul. rewrite xorb_false_l.
  replace (-52 + e) with (e - 52) by lia.
  now apply round_aux_shift52.
Qed.

(** The comparison of spec floats is the lexicographic comparison of
    their keys. *)
Lemma SFcompare_key (x y : spec_float) :
  SFcompare x y =
  match key x, key y with
  | Some a, Some b => Some (lex_compare a b)
  | _, _ => None
  end.
Proof.
  destruct x as [s1 | s1 | | s1 m1 e1], y as [s2 | s2 | | s2 m2 e2];
    try destruct s1; try destruct s2; try reflexivity.
  cbn. rewrite Z.compare_opp, (Z.compare_antisym e1 e2).
  destruct (e1 ?= e2); reflexivity.
Qed.

Lemma lex_compare_lt a b : lex_compare a b = Lt <-> lex_lt a b.
Proof.
  destruct a as [[a1 a2] a3], b as [[b1 b2] b3]. unfold lex_compare, lex_lt.
  destruct (Z.compare_spec a1 b1); [destruct (Z.compare_spec a2 b2);
    [destruct (Z.compare_spec a3 b3) | | ] | | ];
    split; intros; try discriminate; try reflexivity; lia.
Qed.

Lemma lex_compare_eq a b : lex_compare a b = Eq <-> a = b.
Proof.
  destruct a as [[a1 a2] a3], b as [[b1 b2] b3]. unfold lex_compare.
  destruct (Z.compare_spec a1 b1); [destruct (Z.compare_spec a2 b2);
    [destruct (Z.compare_spec a3 b3) | | ] | | ];
    split; intros H'; try discriminate; try (injection H' as ? ? ?);
    subst; try reflexivity; try lia.
Qed.

Lemma leb_key (x y : float) :
  (x <=? y)%float = true <->
  exists a b, key (Prim2SF x) = Some a /\ key (Prim2SF y) = Some b /\ lex_le a b.
Proof.
  rewrite leb_spec. unfold SFleb. rewrite SFcompare_key.
  destruct (key (Prim2SF x)) as [a|], (key (Prim2SF y)) as [b|];
    try (split; [discriminate | intros (? & ? & ? & ? & ?); discriminate]).
  split.
  - intros H. exists a, b. repeat split.
    destruct (lex_compare a b) eqn:E; try discriminate.
    + right. now apply lex_compare_eq.
    + left. now apply lex_compare_lt.
  - intros (a' & b' & Ha & Hb & [Hlt | Heq]).
    + injection Ha as <-. injection Hb as <-.
      apply lex_compare_lt in Hlt. now rewrite Hlt.
    + injection Ha as <-. injection Hb as <-.
      apply lex_compare_eq in Heq. now rewrite Heq.
Qed.

Lemma ltb_key (x y : float) :
  (x <? y)%float = true <->
  exists a b, key (Prim2SF x) = Some a /\ key (Prim2SF y) = Some b /\ lex_lt a b.
Proof.
  rewrite ltb_spec. unfold SFltb. rewrite SFcompare_key.
  destruct (key (Prim2SF x)) as [a|], (key (Prim2SF y)) as [b|];
    try (split; [discriminate | intros (? & ? & ? & ? & ?); discriminate]).
  split.
  - intros H. exists a, b. repeat split.
    destruct (lex_compare a b) eqn:E; try discriminate.
    now apply lex_compare_lt.
  - intros (a' & b' & Ha & Hb & Hlt).
    injection Ha as <-. injection Hb as <-.
    apply lex_compare_lt in Hlt. now rewrite Hlt.
Qed.

Lemma lex_le_trans a b c : lex_le a b -> lex_le b c -> lex_le a c.
Proof.
  destruct a as [[a1 a2] a3], b as [[b1 b2] b3], c as [[c1 c2] c3].
  unfold lex_le, lex_lt. intros [H1 | H1] [H2 | H2];
    try (injection H1 as -> -> ->); try (injection H2 as -> -> ->);
    try (now left); try (now right).
  left. lia.
Qed.

Lemma lex_lt_le_trans a b c : lex_lt a b -> lex_le b c -> lex_lt a c.
Proof.
  destruct a as [[a1 a2] a3], b as [[b1 b2] b3], c as [[c1 c2] c3].
  unfold lex_le, lex_lt. intros H1 [H2 | H2];
    [lia | injection H2 as <- <- <-; exact H1].
Qed.

Lemma lex_lt_not_le a b : lex_lt a b -> ~ lex_le b a.
Proof.
  destruct a as [[a1 a2] a3], b as [[b1 b2] b3].
  unfold lex_le, lex_lt.
  intros H1 [H2 | H2]; [lia | injection H2 as -> -> ->; lia].
Qed.

Lemma leb_trans (x y z : float) :
  (x <=? y)%float = true -> (y <=? z)%float = true -> (x <=? z)%float = true.
Proof.
  rewrite !leb_key. intros (a & b & Ha & Hb & Hab) (b' & c & Hb' & Hc & Hbc).
  rewrite Hb in Hb'. injection Hb' as <-.
  exists a, c. repeat split; trivial. eapply lex_le_trans; eassumption.
Qed.

Lemma ltb_leb_trans (x y z : float) :
  (x <? y)%float = true -> (y <=? z)%float = true -> (x <? z)%float = true.
Proof.
  rewrite !ltb_key, leb_key.
  intros (a & b & Ha & Hb & Hab) (b' & c & Hb' & Hc & Hbc).
  rewrite Hb in Hb'. injection Hb' as <-.
  exists a, c. repeat split; trivial. eapply lex_lt_le_trans; eassumption.
Qed.

Lemma ltb_not_leb (x y : float) :
  (x <? y)%float = true -> (y <=? x)%float = false.
Proof.
  rewrite ltb_key. intros (a & b & Ha & Hb & Hab).
  destruct (y <=? x)%float eqn:E; trivial.
  apply leb_key in E. destruct E as (b' & a' & Hb' & Ha' & Hba).
  rewrite Hb in Hb'. injection Hb' as <-. rewrite Ha in Ha'. injection Ha' as <-.
  now apply lex_lt_not_le in Hab.
Qed.

End FloatFacts.

(** ** The runtime operations on known values *)

Example round_two_decimals :
  map (fun x => Round.round x 2)
    [34.996; 34.994; 2.675; 0.125; 0.375; (-1234.5678); 1e300; 0.001]%float
  = [35; 34.99; 2.67; 0.12; 0.38; (-1234.57); 1e300; 0]%float.
Proof. vm_compute. reflexivity. Qed.

Example round_three_decimals :
  map (fun x => Round.round x 3) [1; 1.0005; 2.07; 1.3225]%float
  = [1; 1; 2.07; 1.323]%float.
Proof. vm_compute. reflexivity. Qed.

Example str_of_ints :
  map (str (rt := ascii_runtime)) [PInt 0; PInt 5; PInt (-3); PStr "6"; PBool true]
  = ["0"; "5"; "-3"; "6"; "True"].
Proof. reflexivity. Qed.

Example upper_ascii :
  upper (rt := ascii_runtime) (PStr "Pichincha") = Ok "PICHINCHA".
Proof. reflexivity. Qed.

Example seasonal_keys :
  map get_estacional [PInt 7; PFloat 7; PBool true; PStr "7"; PNone; PInt 0]
  = map Ok [1.25; 1.25; 1.1; 1; 1; 1]%float.
Proof. vm_compute. reflexivity. Qed.

(** ** The categorizer *)

Lemma categoria_cases (x : float) :
  categoria (categorizar_afluencia x) =
  if (35 <=? x)%float then "MUY ALTA"
  else if (25 <=? x)%float then "ALTA"
  else if (15 <=? x)%float then "MEDIA"
  else "BAJA".
Proof.
  unfold categorizar_afluencia.
  destruct (35 <=? x)%float; [reflexivity|].
  destruct (25 <=? x)%float; [reflexivity|].
  destruct (15 <=? x)%float; reflexivity.
Qed.

Lemma categorizar_monotone (x y : float) :
  (x <=? y)%float = true ->
  nivel (categoria (categorizar_afluencia x))
  <= nivel (categoria (categorizar_afluencia y)).
Proof.
  intros Hxy. rewrite !categoria_cases.
  destruct (35 <=? x)%float eqn:X35.
  { rewrite (leb_trans _ _ _ X35 Hxy). cbn. lia. }
  destruct (25 <=? x)%float eqn:X25.
  { rewrite (leb_trans _ _ _ X25 Hxy).
    destruct (35 <=? y)%float; cbn; lia. }
  destruct (15 <=? x)%float eqn:X15.
  { rewrite (leb_trans _ _ _ X15 Hxy).
    destruct (35 <=? y)%float; [cbn; lia|].
    destruct (25 <=? y)%float; cbn; lia. }
  destruct (35 <=? y)%float; [cbn; lia|].
  destruct (25 <=? y)%float; [cbn; lia|].
  destruct (15 <=? y)%float; cbn; lia.
Qed.

(** C3. The categorizer always answers one of the four bands; its
    thresholds are closed at the lower edge: 35 <= value gives MUY ALTA,
    25 <= value < 35 gives ALTA, 15 <= value < 25 gives MEDIA and
    value < 15 gives BAJA; a larger value never gets a lower band; and
    the values 35, 25 and 15 themselves get MUY ALTA, ALTA and MEDIA. *)
Theorem categorizar_afluencia_bands (x : float) :
  let c := categoria (categorizar_afluencia x) in
  (c = "MUY ALTA" \/ c = "ALTA" \/ c = "MEDIA" \/ c = "BAJA")
  /\ ((35 <=? x)%float = true -> c = "MUY ALTA")
  /\ ((25 <=? x)%float = true -> (x <? 35)%float = true -> c = "ALTA")
  /\ ((15 <=? x)%float = true -> (x <? 25)%float = true -> c = "MEDIA")
  /\ ((x <? 15)%float = true -> c = "BAJA")
  /\ (forall y, (x <=? y)%float = true ->
       nivel c <= nivel (categoria (categorizar_afluencia y)))
  /\ categoria (categorizar_afluencia 35) = "MUY ALTA"
  /\ categoria (categorizar_afluencia 25) = "ALTA"
  /\ categoria (categorizar_afluencia 15) = "MEDIA".
Proof.
  intros c. subst c. rewrite categoria_cases.
  repeat split.
  - destruct (35 <=? x)%float; [now left|].
    destruct (25 <=? x)%float; [now right; left|].
    destruct (15 <=? x)%float; [now right; right; left | now right; right; right].
  - intros ->. reflexivity.
  - intros H25 H35. rewrite (ltb_not_leb _ _ H35), H25. reflexivity.
  - intros H15 H25.
    rewrite (ltb_not_leb _ _ (ltb_leb_trans x 25 35 H25 eq_refl)).
    rewrite (ltb_not_leb _ _ H25), H15. reflexivity.
  - intros H15.
    rewrite (ltb_not_leb _ _ (ltb_leb_trans x 15 35 H15 eq_refl)).
    rewrite (ltb_not_leb _ _ (ltb_leb_trans x 15 25 H15 eq_refl)).
    rewrite (ltb_not_leb _ _ H15). reflexivity.
  - intros y Hxy. rewrite <- categoria_cases. now apply categorizar_monotone.
Qed.

Lemma categorizar_afluencia_bands_witness :
  categoria (categorizar_afluencia 30) = "ALTA"
  /\ nivel (categoria (categorizar_afluencia 30))
     <= nivel (categoria (categorizar_afluencia 40)).
Proof.
  pose proof (categorizar_afluencia_bands 30) as H. cbv zeta in H.
  destruct H as (_ & _ & Halta & _ & _ & Hmono & _).
  split.
  - apply Halta; reflexivity.
  - apply Hmono; reflexivity.
Defined.

(** ** The correction engine *)

(** Inversion of a [bind] that returned. *)
Lemma bind_ok {A B} (m : result A) (k : A -> result B) (b : B) :
  bind m k = Ok b -> exists a, m = Ok a /\ k a = Ok b.
Proof.
  destruct m as [a | e]; cbn; [intros H; now exists a | discriminate].
Qed.

Tactic Notation "bind_inv" hyp(H) "as" ident(a) ident(Ha) :=
  apply bind_ok in H; destruct H as (a & Ha & H).

Section Correccion.
Context {rt : Runtime}.

Lemma mul_float_ok (x : float) (v : pyval) (y : float) :
  mul_float x v = Ok y -> exists f, as_float v = Some f /\ y = (x * f)%float.
Proof.
  destruct v as [ | b | z | f | s | l | d]; cbn; try discriminate.
  - intros [= <-]. eauto.
  - destruct (float_of_Z z) as [f|]; [intros [= <-]; eauto | discriminate].
  - intros [= <-]. eauto.
Qed.

(** The province step on the initial state: the entry of the breakdown
    is a number, the running product is that number, and it is 1.0
    unless the upper-cased province is in the table. *)
Lemma correccion_provincia_ok (pat provincia : pyval) (st : Factores) :
  correccion_provincia pat provincia (factores_iniciales, 1%float) = Ok st ->
  exists fp P,
    as_float fp = Some P
    /\ st = ([ ("provincia", fp); ("dia_semana", PFloat 1);
              ("vacaciones", PFloat 1); ("estacional", PFloat 1) ], P)
    /\ (forall u tabla,
          upper provincia = Ok u ->
          getitem pat "PATRONES_PROVINCIA" = Ok tabla ->
          contains u tabla = Ok false -> fp = PFloat 1).
Proof.
  unfold correccion_provincia. intros H.
  bind_inv H as u Hu. bind_inv H as tabla Ht. bind_inv H as presente Hin.
  destruct presente.
  - bind_inv H as tabla' Ht'. bind_inv H as entrada He.
    bind_inv H as fp Hget. bind_inv H as ft Hmul.
    injection H as <-.
    apply mul_float_ok in Hmul. destruct Hmul as (P & HP & ->).
    exists fp, P. rewrite mul_1_l. repeat split; trivial.
    intros u0 tabla0 Hu0 Ht0 Hc. congruence.
  - injection H as <-. exists (PFloat 1), 1%float. repeat split.
Qed.

Lemma correccion_dia_semana_ok (pat dia_semana fp : pyval) (P : float)
    (st : Factores) :
  correccion_dia_semana pat dia_semana
    ([ ("provincia", fp); ("dia_semana", PFloat 1);
       ("vacaciones", PFloat 1); ("estacional", PFloat 1) ], P) = Ok st ->
  exists fd D,
    as_float fd = Some D
    /\ st = ([ ("provincia", fp); ("dia_semana", fd);
              ("vacaciones", PFloat 1); ("estacional", PFloat 1) ],
            (P * D)%float)
    /\ (forall tabla,
          getitem pat "PATRONES_DIA_SEMANA" = Ok tabla ->
          contains (str dia_semana) tabla = Ok false -> fd = PFloat 1).
Proof.
  unfold correccion_dia_semana. intros H.
  bind_inv H as tabla Ht. bind_inv H as presente Hin.
  destruct presente.
  - bind_inv H as tabla' Ht'. bind_inv H as entrada He.
    bind_inv H as fd Hget. bind_inv H as ft Hmul.
    injection H as <-.
    apply mul_float_ok in Hmul. destruct Hmul as (D & HD & ->).
    exists fd, D. repeat split; trivial.
    intros tabla0 Ht0 Hc. congruence.
  - injection H as <-. exists (PFloat 1), 1%float.
    rewrite mul_1_r. repeat split.
Qed.

Lemma correccion_vacaciones_eq (es_vacaciones fp fd : pyval) (ft : float) :
  correccion_vacaciones es_vacaciones
    ([ ("provincia", fp); ("dia_semana", fd);
       ("vacaciones", PFloat 1); ("estacional", PFloat 1) ], ft)
  = ([ ("provincia", fp); ("dia_semana", fd);
       ("vacaciones", PFloat (factor_vacaciones_de es_vacaciones));
       ("estacional", PFloat 1) ],
     (ft * factor_vacaciones_de es_vacaciones)%float).
Proof.
  unfold correccion_vacaciones, factor_vacaciones_de.
  destruct (truthy es_vacaciones); [reflexivity | now rewrite mul_1_r].
Qed.

(** What a normal run of the [try] block returns. *)
Lemma correccion_ok (pat : pyval) (base : float)
    (provincia dia_semana es_vacaciones mes : pyval) (r : CorrectionResult) :
  correccion pat base provincia dia_semana es_vacaciones mes = Ok r ->
  exists fp fd P D E,
    as_float fp = Some P /\ as_float fd = Some D
    /\ get_estacional mes = Ok E
    /\ factores_aplicados r =
         [ ("provincia", fp); ("dia_semana", fd);
           ("vacaciones", PFloat (factor_vacaciones_de es_vacaciones));
           ("estacional", PFloat E) ]
    /\ factor_total r = (P * D * factor_vacaciones_de es_vacaciones * E)%float
    /\ prediccion_corregida r = (base * factor_total r)%float
    /\ (forall u tabla,
          upper provincia = Ok u ->
          getitem pat "PATRONES_PROVINCIA" = Ok tabla ->
          contains u tabla = Ok false -> fp = PFloat 1)
    /\ (forall tabla,
          getitem pat "PATRONES_DIA_SEMANA" = Ok tabla ->
          contains (str dia_semana) tabla = Ok false -> fd = PFloat 1).
Proof.
  unfold correccion. intros H.
  bind_inv H as st1 H1. apply correccion_provincia_ok in H1.
  destruct H1 as (fp & P & HP & -> & Hfp).
  bind_inv H as st2 H2. apply correccion_dia_semana_ok in H2.
  destruct H2 as (fd & D & HD & -> & Hfd).
  rewrite correccion_vacaciones_eq in H.
  unfold correccion_estacional in H.
  bind_inv H as st3 H3. bind_inv H3 as E HE.
  injection H3 as <-. injection H as <-.
  exists fp, fd, P, D, E. cbn. repeat split; trivial.
Qed.

End Correccion.

(** C2. On the normal path of the engine the corrected value is
    [base * factor_total], and [factor_total] is the product of the four
    factors of the returned breakdown (province, weekday, holiday,
    seasonal), each read as a float and multiplied from left to right. *)
Theorem correccion_producto {rt : Runtime} (pat : pyval) (base : float)
    (provincia dia_semana es_vacaciones mes : pyval) (r : CorrectionResult) :
  correccion pat base provincia dia_semana es_vacaciones mes = Ok r ->
  aplicar_correccion_avanzada pat base provincia dia_semana es_vacaciones mes = r
  /\ prediccion_corregida r = (base * factor_total r)%float
  /\ exists fp fd fv fe P D V E,
       lookup "provincia" (factores_aplicados r) = Some fp
       /\ lookup "dia_semana" (factores_aplicados r) = Some fd
       /\ lookup "vacaciones" (factores_aplicados r) = Some fv
       /\ lookup "estacional" (factores_aplicados r) = Some fe
       /\ as_float fp = Some P /\ as_float fd = Some D
       /\ as_float fv = Some V /\ as_float fe = Some E
       /\ factor_total r = (P * D * V * E)%float.
Proof.
  intros H. split; [unfold aplicar_correccion_avanzada; now rewrite H|].
  apply correccion_ok in H.
  destruct H as (fp & fd & P & D & E & HP & HD & _ & Hf & Ht & Hc & _).
  split; [exact Hc|].
  exists fp, fd, (PFloat (factor_vacaciones_de es_vacaciones)), (PFloat E),
    P, D, (factor_vacaciones_de es_vacaciones), E.
  rewrite Hf. cbn. repeat split; trivial.
Qed.

Lemma correccion_producto_witness :
  correccion (rt := ascii_runtime) patrones_ejemplo 20
    (PStr "Pichincha") (PInt 5) (PInt 1) (PInt 7) = Ok resultado_ejemplo
  /\ prediccion_corregida resultado_ejemplo
     = (20 * factor_total resultado_ejemplo)%float.
Proof.
  assert (H : correccion (rt := ascii_runtime) patrones_ejemplo 20
                (PStr "Pichincha") (PInt 5) (PInt 1) (PInt 7)
              = Ok resultado_ejemplo) by (vm_compute; reflexivity).
  split; [exact H|].
  exact (proj1 (proj2 (correccion_producto _ _ _ _ _ _ _ H))).
Defined.

(** C6. The seasonal factor of a month [m] is the value of the fixed
    table for [m] in 1..12 and 1.0 for every other [m]; on the normal
    path it is the ['estacional'] entry of the breakdown and the last
    factor of [factor_total]. *)
Theorem factor_estacional_tabla (m : Z) :
  get_estacional (PInt m) = Ok (estacional_spec m)
  /\ ((m < 1 \/ 12 < m)%Z -> get_estacional (PInt m) = Ok 1%float)
  /\ (forall (rt : Runtime) pat base provincia dia_semana es_vacaciones r,
        correccion pat base provincia dia_semana es_vacaciones (PInt m) = Ok r ->
        lookup "estacional" (factores_aplicados r)
        = Some (PFloat (estacional_spec m))
        /\ exists ft, factor_total r = (ft * estacional_spec m)%float).
Proof.
  assert (Hget : get_estacional (PInt m) = Ok (estacional_spec m))
    by reflexivity.
  split; [exact Hget|]. split.
  - intros Hm. rewrite Hget. unfold estacional_spec.
    repeat match goal with
    | |- context [(m =? ?k)%Z] =>
        destruct (Z.eqb_spec m k) as [Hk | _]; [exfalso; lia|]
    end.
    reflexivity.
  - intros rt pat base provincia dia_semana es_vacaciones r H.
    apply correccion_ok in H.
    destruct H as (fp & fd & P & D & E & _ & _ & HE & Hf & Ht & _).
    rewrite Hget in HE. injection HE as <-.
    rewrite Hf, Ht. split; [reflexivity | eauto].
Qed.

Lemma factor_estacional_tabla_witness :
  (12 < 13)%Z
  /\ get_estacional (PInt 13) = Ok 1%float
  /\ get_estacional (PInt 7) = Ok 1.25%float
  /\ lookup "estacional" (factores_aplicados resultado_ejemplo)
     = Some (PFloat 1.25).
Proof.
  split; [lia|]. split; [|split].
  - apply (proj1 (proj2 (factor_estacional_tabla 13))). right. lia.
  - exact (proj1 (factor_estacional_tabla 7)).
  - apply (proj2 (proj2 (factor_estacional_tabla 7))
             ascii_runtime patrones_ejemplo 20%float (PStr "Pichincha") (PInt 5) (PInt 1)).
    vm_compute. reflexivity.
Defined.

(** The twelve entries of the table, as the specification lists them. *)
Lemma estacional_spec_values :
  map estacional_spec [1; 2; 3; 4; 5; 6; 7; 8; 9; 10; 11; 12]%Z
  = [1.1; 1.05; 0.95; 0.9; 0.9; 1.2; 1.25; 1.3; 0.9; 0.95; 1.0; 1.15]%float.
Proof. reflexivity. Qed.

(** C7. A factor whose rule does not match is 1.0 and is no error: a
    province whose upper-cased form is not a key of the province table
    and a weekday whose [str] is not a key of the weekday table leave the
    state of the engine untouched, a false holiday flag does too, and a
    true flag multiplies 1.15 in; on the normal path the breakdown then
    shows 1.0 for each factor without a rule (1.15 for a true holiday
    flag, which is the third factor of [factor_total]), and when neither
    table has a rule the engine does take the normal path. *)
Theorem factores_por_defecto {rt : Runtime} (pat : pyval) (base : float)
    (provincia dia_semana es_vacaciones mes : pyval) :
  (forall s d st,
      provincia = PStr s ->
      getitem pat "PATRONES_PROVINCIA" = Ok (PDict d) ->
      has_key (str_upper s) d = false ->
      correccion_provincia pat provincia st = Ok st)
  /\ (forall d st,
      getitem pat "PATRONES_DIA_SEMANA" = Ok (PDict d) ->
      has_key (str dia_semana) d = false ->
      correccion_dia_semana pat dia_semana st = Ok st)
  /\ (forall st,
      truthy es_vacaciones = false ->
      correccion_vacaciones es_vacaciones st = st)
  /\ (forall fs ft,
      truthy es_vacaciones = true ->
      correccion_vacaciones es_vacaciones (fs, ft)
      = (dict_set "vacaciones" (PFloat 1.15) fs, (ft * 1.15)%float))
  /\ (forall r,
      correccion pat base provincia dia_semana es_vacaciones mes = Ok r ->
      (forall s d,
          provincia = PStr s ->
          getitem pat "PATRONES_PROVINCIA" = Ok (PDict d) ->
          has_key (str_upper s) d = false ->
          lookup "provincia" (factores_aplicados r) = Some (PFloat 1))
      /\ (forall d,
          getitem pat "PATRONES_DIA_SEMANA" = Ok (PDict d) ->
          has_key (str dia_semana) d = false ->
          lookup "dia_semana" (factores_aplicados r) = Some (PFloat 1))
      /\ (truthy es_vacaciones = false ->
          lookup "vacaciones" (factores_aplicados r) = Some (PFloat 1))
      /\ (truthy es_vacaciones = true ->
          lookup "vacaciones" (factores_aplicados r) = Some (PFloat 1.15)
          /\ exists P D E, factor_total r = (P * D * 1.15 * E)%float))
  /\ (forall s dp dd E,
      provincia = PStr s ->
      getitem pat "PATRONES_PROVINCIA" = Ok (PDict dp) ->
      has_key (str_upper s) dp = false ->
      getitem pat "PATRONES_DIA_SEMANA" = Ok (PDict dd) ->
      has_key (str dia_semana) dd = false ->
      truthy es_vacaciones = false ->
      get_estacional mes = Ok E ->
      correccion pat base provincia dia_semana es_vacaciones mes
      = Ok {| prediccion_corregida := (base * E)%float;
              factores_aplicados :=
                [ ("provincia", PFloat 1); ("dia_semana", PFloat 1);
                  ("vacaciones", PFloat 1); ("estacional", PFloat E) ];
              factor_total := E |}).
Proof.
  assert (Hprov : forall s d st,
      provincia = PStr s ->
      getitem pat "PATRONES_PROVINCIA" = Ok (PDict d) ->
      has_key (str_upper s) d = false ->
      correccion_provincia pat provincia st = Ok st).
  { intros s d [fs ft] -> Ht Hk. unfold correccion_provincia.
    cbn [upper bind]. rewrite Ht. cbn [bind contains]. now rewrite Hk. }
  assert (Hdia : forall d st,
      getitem pat "PATRONES_DIA_SEMANA" = Ok (PDict d) ->
      has_key (str dia_semana) d = false ->
      correccion_dia_semana pat dia_semana st = Ok st).
  { intros d [fs ft] Ht Hk. unfold correccion_dia_semana.
    rewrite Ht. cbn [bind contains]. now rewrite Hk. }
  assert (Hvac : forall st,
      truthy es_vacaciones = false ->
      correccion_vacaciones es_vacaciones st = st).
  { intros [fs ft] Hv. unfold correccion_vacaciones. now rewrite Hv. }
  repeat apply conj; trivial.
  - intros fs ft Hv. unfold correccion_vacaciones. now rewrite Hv.
  - intros r H. apply correccion_ok in H.
    destruct H as (fp & fd & P & D & E & _ & _ & _ & Hf & Hft & _ & Hfp & Hfd).
    rewrite Hf, Hft. unfold factor_vacaciones_de. repeat apply conj.
    + intros s d -> Ht Hk. cbn.
      rewrite (Hfp (str_upper s) (PDict d)); cbn; congruence.
    + intros d Ht Hk. cbn.
      rewrite (Hfd (PDict d)); cbn; congruence.
    + intros ->. reflexivity.
    + intros ->. split; [reflexivity | eauto].
  - intros s dp dd E Hs Htp Hkp Htd Hkd Hv HE. unfold correccion.
    rewrite (Hprov s dp _ Hs Htp Hkp). cbn [bind].
    rewrite (Hdia dd _ Htd Hkd). cbn [bind].
    rewrite (Hvac _ Hv). unfold correccion_estacional.
    rewrite HE. cbn [bind]. now rewrite mul_1_l.
Qed.

Lemma factores_por_defecto_witness :
  correccion (rt := ascii_runtime) patrones_ejemplo 20
    (PStr "Loja") (PInt 1) (PInt 0) (PInt 13) = Ok resultado_sin_reglas
  /\ lookup "provincia" (factores_aplicados resultado_sin_reglas)
     = Some (PFloat 1)
  /\ lookup "dia_semana" (factores_aplicados resultado_sin_reglas)
     = Some (PFloat 1)
  /\ lookup "vacaciones" (factores_aplicados resultado_sin_reglas)
     = Some (PFloat 1).
Proof.
  assert (H : correccion (rt := ascii_runtime) patrones_ejemplo 20
                (PStr "Loja") (PInt 1) (PInt 0) (PInt 13)
              = Ok resultado_sin_reglas) by (vm_compute; reflexivity).
  split; [exact H|].
  destruct (proj1 (proj2 (proj2 (proj2 (proj2
              (factores_por_defecto (rt := ascii_runtime) patrones_ejemplo 20
                 (PStr "Loja") (PInt 1) (PInt 0) (PInt 13))))))
              resultado_sin_reglas H) as (Hp & Hd & Hv & _).
  split; [|split].
  - eapply Hp; [reflexivity | reflexivity | reflexivity].
  - eapply Hd; reflexivity.
  - apply Hv. reflexivity.
Defined.

(** ** Feature alignment *)

Section Alineacion.

Variable V : Type.
Implicit Types (d : list (string * V)) (k : string).

Lemma lookup_dict_set_same k (v : V) d : lookup k (dict_set k v d) = Some v.
Proof.
  induction d as [| [k' v'] d IH]; cbn.
  - now rewrite String.eqb_refl.
  - destruct (String.eqb k k') eqn:E; cbn; rewrite E; [reflexivity | exact IH].
Qed.

Lemma lookup_dict_set_other k k' (v : V) d :
  k <> k' -> lookup k (dict_set k' v d) = lookup k d.
Proof.
  intros Hne. apply String.eqb_neq in Hne.
  induction d as [| [k'' v''] d IH]; cbn.
  - now rewrite Hne.
  - destruct (String.eqb k' k'') eqn:E; cbn.
    + apply String.eqb_eq in E. subst k''. now rewrite Hne.
    + destruct (String.eqb k k''); [reflexivity | exact IH].
Qed.

End Alineacion.

Arguments lookup_dict_set_same {V}.
Arguments lookup_dict_set_other {V}.

(** After the fill-in loop a column holds the field of the record when
    there is one, 0 when it is a feature the record lacks. *)
Lemma completar_lookup (features : list string) (df : DataFrame) (k : string) :
  lookup k (completar features df) =
  match lookup k df with
  | Some v => Some v
  | None => if existsb (String.eqb k) features then Some (PInt 0) else None
  end.
Proof.
  unfold completar. revert df.
  induction features as [| f fs IH]; intros df; cbn [fold_left existsb].
  - now destruct (lookup k df).
  - rewrite IH. unfold has_key.
    destruct (lookup f df) as [v |] eqn:Hf.
    + destruct (lookup k df) as [w |] eqn:Hk; [reflexivity|].
      destruct (String.eqb k f) eqn:E; [|reflexivity].
      apply String.eqb_eq in E. congruence.
    + destruct (String.eqb k f) eqn:E.
      * apply String.eqb_eq in E. subst k.
        now rewrite lookup_dict_set_same, Hf.
      * apply String.eqb_neq in E.
        now rewrite (lookup_dict_set_other _ _ _ _ E).
Qed.

Lemma seleccionar_map (features : list string) (df : DataFrame)
    (g : string -> pyval) :
  (forall f, In f features -> lookup f df = Some (g f)) ->
  seleccionar features df = Ok (map (fun f => (f, g f)) features).
Proof.
  induction features as [| f fs IH]; intros H; cbn [seleccionar map].
  - reflexivity.
  - rewrite (H f (or_introl eq_refl)), IH; [reflexivity|].
    intros f' Hin. apply H. now right.
Qed.

Lemma alinear_eq (features : list string) (data : pyval) :
  alinear features data
  = Ok (map (fun f => (f, valor_alineado data f)) features).
Proof.
  unfold alinear. apply seleccionar_map. intros f Hin.
  rewrite completar_lookup. unfold valor_alineado.
  destruct (lookup f (data_frame data)); [reflexivity|].
  assert (E : existsb (String.eqb f) features = true).
  { apply existsb_exists. exists f. split; [exact Hin | apply String.eqb_refl]. }
  now rewrite E.
Qed.

Lemma lookup_map_key (g : string -> pyval) (features : list string) (k : string) :
  lookup k (map (fun f => (f, g f)) features)
  = if existsb (String.eqb k) features then Some (g k) else None.
Proof.
  induction features as [| f fs IH]; cbn; [reflexivity|].
  destruct (String.eqb k f) eqn:E; cbn; [|exact IH].
  apply String.eqb_eq in E. now subst.
Qed.

(** C5. For every record (whatever its keys) and every schema the
    aligner succeeds; the row it hands to the model has one column per
    schema field, in schema order; a field the record lacks is 0, a field
    the record has keeps its value, and fields outside the schema are
    not in the row. *)
Theorem alinear_schema (features : list string) (data : pyval) :
  exists row,
    alinear features data = Ok row
    /\ List.length row = List.length features
    /\ map fst row = features
    /\ (forall f, In f features ->
        lookup f row = Some (match lookup f (data_frame data) with
                             | Some v => v
                             | None => PInt 0
                             end))
    /\ (forall k, ~ In k features -> lookup k row = None).
Proof.
  exists (map (fun f => (f, valor_alineado data f)) features).
  split; [apply alinear_eq|].
  split; [apply length_map|].
  split.
  { rewrite map_map. cbn. apply map_id. }
  split.
  - intros f Hin. rewrite lookup_map_key.
    assert (E : existsb (String.eqb f) features = true).
    { apply existsb_exists. exists f. split; [exact Hin | apply String.eqb_refl]. }
    now rewrite E.
  - intros k Hk. rewrite lookup_map_key.
    destruct (existsb (String.eqb k) features) eqn:E; [|reflexivity].
    apply existsb_exists in E. destruct E as (f & Hin & Hf).
    apply String.eqb_eq in Hf. now subst.
Qed.

(** ** The handlers *)

Section Handlers.
Context {rt : Runtime}.

Lemma features_de_ok (env : Env) (features : list string) :
  features_de env = Ok features -> is_none (features_info env) = false.
Proof. unfold features_de. now destruct (features_info env). Qed.

Lemma predecir_ok (env : Env) (df : DataFrame) (y : float) :
  predecir env df = Ok y -> is_none (modelo env) = false.
Proof. unfold predecir. now destruct (modelo env). Qed.

(** The successful run of POST /predict. *)
Lemma predict_200_intro (env : Env) (req : Request) (data : pyval)
    (features : list string) (df : DataFrame) (base : float)
    (provincia dia_semana es_vacaciones mes : pyval) (u : string) :
  json req = Ok data -> truthy data = true ->
  features_de env = Ok features ->
  alinear features data = Ok df ->
  predecir env df = Ok base ->
  get data "provincia" (PStr "PICHINCHA") = Ok provincia ->
  get data "dia_semana" (PInt 1) = Ok dia_semana ->
  get data "Es_Vacaciones" (PInt 0) = Ok es_vacaciones ->
  get data "Mes" (PInt 1) = Ok mes ->
  upper provincia = Ok u ->
  let r := aplicar_correccion_avanzada (patrones env) base
             provincia dia_semana es_vacaciones mes in
  predict env req
  = {| status := 200;
       body := respuesta (prediccion_corregida r) base
                 (categorizar_afluencia (prediccion_corregida r))
                 u dia_semana mes es_vacaciones r (now req) |}.
Proof.
  intros Hj Ht Hf Ha Hm Hp Hd Hv Hmes Hu r.
  unfold predict, predict_try.
  rewrite (features_de_ok _ _ Hf), (predecir_ok _ _ _ Hm). cbn [orb].
  rewrite Hj. cbn [bind]. rewrite Ht. cbn [negb].
  rewrite Hf. cbn [bind]. rewrite Ha. cbn [bind]. rewrite Hm. cbn [bind].
  rewrite Hp. cbn [bind]. rewrite Hd. cbn [bind]. rewrite Hv. cbn [bind].
  rewrite Hmes. cbn [bind]. rewrite Hu. reflexivity.
Qed.

Lemma predict_200_inv (env : Env) (req : Request) :
  status (predict env req) = 200%Z ->
  exists data features df base provincia dia_semana es_vacaciones mes u,
    json req = Ok data /\ truthy data = true
    /\ features_de env = Ok features
    /\ alinear features data = Ok df
    /\ predecir env df = Ok base
    /\ get data "provincia" (PStr "PICHINCHA") = Ok provincia
    /\ get data "dia_semana" (PInt 1) = Ok dia_semana
    /\ get data "Es_Vacaciones" (PInt 0) = Ok es_vacaciones
    /\ get data "Mes" (PInt 1) = Ok mes
    /\ upper provincia = Ok u.
Proof.
  unfold predict. destruct (predict_try env req) as [resp | e] eqn:H;
    [| cbn; discriminate].
  intros Hs. unfold predict_try in H.
  destruct (is_none (modelo env) || is_none (features_info env)).
  { injection H as <-. discriminate Hs. }
  bind_inv H as data Hj.
  destruct (truthy data) eqn:Ht; cbn [negb] in H.
  2:{ injection H as <-. discriminate Hs. }
  bind_inv H as features Hf. bind_inv H as df Ha. bind_inv H as base Hm.
  bind_inv H as provincia Hp. bind_inv H as dia_semana Hd.
  bind_inv H as es_vacaciones Hv. bind_inv H as mes Hmes.
  bind_inv H as u Hu.
  exists data, features, df, base, provincia, dia_semana, es_vacaciones, mes, u.
  repeat split; assumption.
Qed.

(** The successful run of POST /predict/simple. *)
Lemma predict_simple_200_intro (env : Env) (req : Request) (data : pyval)
    (features : list string) (df : DataFrame) (base : float)
    (provincia dia_semana mes : pyval) :
  json req = Ok data -> truthy data = true ->
  features_de env = Ok features ->
  alinear features data = Ok df ->
  predecir env df = Ok base ->
  get data "provincia" (PStr "PICHINCHA") = Ok provincia ->
  get data "dia_semana" (PInt 1) = Ok dia_semana ->
  get data "Mes" (PInt 1) = Ok mes ->
  let r := aplicar_correccion_avanzada (patrones env) base
             provincia dia_semana (PInt 0) mes in
  let afluencia := Round.round (prediccion_corregida r) 2 in
  predict_simple env req
  = {| status := 200;
       body := [ ("afluencia", PFloat afluencia);
                 ("categoria",
                  PStr (categoria (categorizar_afluencia afluencia)));
                 ("success", PBool true) ] |}.
Proof.
  intros Hj Ht Hf Ha Hm Hp Hd Hmes r afluencia.
  unfold predict_simple, predict_simple_try.
  rewrite Hj. cbn [bind]. rewrite Ht. cbn [negb].
  rewrite Hf. cbn [bind]. rewrite Ha. cbn [bind]. rewrite Hm. cbn [bind].
  rewrite Hp. cbn [bind]. rewrite Hd. cbn [bind]. rewrite Hmes. reflexivity.
Qed.

Lemma predict_simple_200_inv (env : Env) (req : Request) :
  status (predict_simple env req) = 200%Z ->
  exists data features df base provincia dia_semana mes,
    json req = Ok data /\ truthy data = true
    /\ features_de env = Ok features
    /\ alinear features data = Ok df
    /\ predecir env df = Ok base
    /\ get data "provincia" (PStr "PICHINCHA") = Ok provincia
    /\ get data "dia_semana" (PInt 1) = Ok dia_semana
    /\ get data "Mes" (PInt 1) = Ok mes.
Proof.
  unfold predict_simple.
  destruct (predict_simple_try env req) as [resp | e] eqn:H;
    [| cbn; discriminate].
  intros Hs. unfold predict_simple_try in H.
  bind_inv H as data Hj.
  destruct (truthy data) eqn:Ht; cbn [negb] in H.
  2:{ injection H as <-. discriminate Hs. }
  bind_inv H as features Hf. bind_inv H as df Ha. bind_inv H as base Hm.
  bind_inv H as provincia Hp. bind_inv H as dia_semana Hd.
  bind_inv H as mes Hmes.
  exists data, features, df, base, provincia, dia_semana, mes.
  repeat split; assumption.
Qed.

(** The engine only looks at the truth value of the holiday flag. *)
Lemma aplicar_correccion_flag_falso (pat : pyval) (base : float)
    (provincia dia_semana es_vacaciones mes : pyval) :
  truthy es_vacaciones = false ->
  aplicar_correccion_avanzada pat base provincia dia_semana es_vacaciones mes
  = aplicar_correccion_avanzada pat base provincia dia_semana (PInt 0) mes.
Proof.
  intros Hv. unfold aplicar_correccion_avanzada, correccion.
  destruct (correccion_provincia pat provincia _) as [st1 | e]; [|reflexivity].
  cbn [bind].
  destruct (correccion_dia_semana pat dia_semana st1) as [[fs ft] | e];
    [|reflexivity].
  cbn [bind]. unfold correccion_vacaciones. rewrite Hv. reflexivity.
Qed.

End Handlers.

(** The simple endpoint categorizes the value it reports. *)
Lemma predict_simple_round_trip {rt : Runtime} (env : Env) (req : Request) :
  status (predict_simple env req) = 200%Z ->
  exists a,
    lookup "afluencia" (body (predict_simple env req)) = Some (PFloat a)
    /\ lookup "categoria" (body (predict_simple env req))
       = Some (PStr (categoria (categorizar_afluencia a))).
Proof.
  intros H. apply predict_simple_200_inv in H.
  destruct H as (data & features & df & base & provincia & dia_semana & mes
                 & Hj & Ht & Hf & Ha & Hm & Hp & Hd & Hmes).
  rewrite (predict_simple_200_intro _ _ _ _ _ _ _ _ _ Hj Ht Hf Ha Hm Hp Hd Hmes).
  eexists. split; reflexivity.
Qed.

(** The full endpoint categorizes the corrected value and reports it
    rounded. *)
Lemma predict_categoria {rt : Runtime} (env : Env) (req : Request) :
  status (predict env req) = 200%Z ->
  exists x,
    campo "prediccion" "afluencia" (body (predict env req))
    = Some (PFloat (Round.round x 2))
    /\ campo "prediccion" "categoria" (body (predict env req))
       = Some (PStr (categoria (categorizar_afluencia x))).
Proof.
  intros H. apply predict_200_inv in H.
  destruct H as (data & features & df & base & provincia & dia_semana
                 & es_vacaciones & mes & u
                 & Hj & Ht & Hf & Ha & Hm & Hp & Hd & Hv & Hmes & Hu).
  rewrite (predict_200_intro _ _ _ _ _ _ _ _ _ _ _
             Hj Ht Hf Ha Hm Hp Hd Hv Hmes Hu).
  eexists. split; reflexivity.
Qed.

(** C1. POST /predict at a corrected prediction of 34.996: the response
    is a 200 whose [afluencia] is 35.0 and whose [categoria] is ALTA,
    while the categorizer gives MUY ALTA to 35.0 (the simple endpoint
    answers MUY ALTA for the same request). *)
Theorem predict_round_trip_at_34_996 :
  let resp := predict (rt := ascii_runtime) (env_ejemplo 34.996)
                (peticion datos_loja) in
  status resp = 200%Z
  /\ campo "prediccion" "afluencia" (body resp) = Some (PFloat 35)
  /\ campo "prediccion" "categoria" (body resp) = Some (PStr "ALTA")
  /\ categoria (categorizar_afluencia 35) = "MUY ALTA"
  /\ lookup "categoria"
       (body (predict_simple (rt := ascii_runtime) (env_ejemplo 34.996)
                (peticion datos_loja)))
     = Some (PStr "MUY ALTA").
Proof. vm_compute. repeat split. Qed.

(** C8. With the model and the schema loaded, every POST /predict whose
    body is empty or absent is answered 400 with an [error] field. *)
Theorem predict_cuerpo_vacio {rt : Runtime} (env : Env) (req : Request) :
  modelo env <> None -> features_info env <> None ->
  cuerpo_vacio req ->
  status (predict env req) = 400%Z
  /\ exists msg, lookup "error" (body (predict env req)) = Some (PStr msg).
Proof.
  intros Hm Hf Hreq. unfold predict, predict_try.
  destruct (modelo env); [|contradiction].
  destruct (features_info env); [|contradiction].
  cbn [is_none orb]. unfold cuerpo_vacio in Hreq.
  destruct (json req) as [data | e]; cbn [bind].
  - rewrite Hreq. cbn. eauto.
  - cbn. eauto.
Qed.

Lemma predict_cuerpo_vacio_witness :
  cuerpo_vacio (peticion (PDict []))
  /\ status (predict (rt := ascii_runtime) (env_ejemplo 20)
               (peticion (PDict []))) = 400%Z.
Proof.
  assert (H : cuerpo_vacio (peticion (PDict []))) by reflexivity.
  split; [exact H|].
  apply (predict_cuerpo_vacio (rt := ascii_runtime) (env_ejemplo 20)
           (peticion (PDict []))); [discriminate | discriminate | exact H].
Defined.

(** Before the resources are loaded an empty body is answered 500. *)
Lemma predict_cuerpo_vacio_sin_cargar :
  cuerpo_vacio (peticion PNone)
  /\ status (predict (rt := ascii_runtime) env_sin_cargar (peticion PNone))
     = 500%Z.
Proof. split; reflexivity. Qed.

(** C10. While the model or the schema is not loaded, POST
    /predict/simple answers 400 with an [error] field where POST /predict
    answers 500: the body is [{error, success: false}] when
    [request.json] raised or gave a true value (the failure is caught by
    the generic handler), and [{error}] alone when the body is empty. *)
Theorem predict_simple_sin_recursos {rt : Runtime} (env : Env) (req : Request) :
  modelo env = None \/ features_info env = None ->
  status (predict_simple env req) = 400%Z
  /\ status (predict env req) = 500%Z
  /\ match json req with
     | Raise e =>
         body (predict_simple env req)
         = [("error", PStr (str_exn e)); ("success", PBool false)]
     | Ok data =>
         if truthy data then
           exists e,
             body (predict_simple env req)
             = [("error", PStr (str_exn e)); ("success", PBool false)]
         else
           body (predict_simple env req)
           = [("error", PStr "No data provided")]
     end.
Proof.
  intros Hnone.
  assert (H500 : status (predict env req) = 500%Z).
  { unfold predict, predict_try.
    destruct Hnone as [-> | ->]; cbn [is_none orb];
      [|rewrite orb_true_r]; reflexivity. }
  apply and_comm. split; [split; [exact H500|] |]; clear H500;
    unfold predict_simple, predict_simple_try;
    (destruct (json req) as [data | e]; cbn [bind]; [|cbn; reflexivity]);
    (destruct (truthy data); cbn [negb]; [|cbn; reflexivity]);
    unfold features_de;
    (destruct (features_info env) as [info |] eqn:Hinfo; cbn [bind];
     [|first [reflexivity | eexists; reflexivity]]);
    (destruct Hnone as [Hm | Hf]; [|congruence]);
    rewrite alinear_eq; cbn [bind]; unfold predecir; rewrite Hm; cbn [bind];
    first [reflexivity | eexists; reflexivity].
Qed.

Lemma predict_simple_sin_recursos_witness :
  modelo env_sin_cargar = None
  /\ status (predict_simple (rt := ascii_runtime) env_sin_cargar
               (peticion datos_loja)) = 400%Z
  /\ status (predict (rt := ascii_runtime) env_sin_cargar
               (peticion datos_loja)) = 500%Z.
Proof.
  split; [reflexivity|].
  destruct (predict_simple_sin_recursos (rt := ascii_runtime) env_sin_cargar
              (peticion datos_loja) (or_introl eq_refl)) as (H1 & H2 & _).
  split; assumption.
Defined.

(** With an empty object as body the 400 of the simple endpoint carries
    no [success] field. *)
Lemma predict_simple_sin_success :
  let resp := predict_simple (rt := ascii_runtime) env_sin_cargar
                (peticion (PDict [])) in
  status resp = 400%Z
  /\ body resp = [("error", PStr "No data provided")]
  /\ lookup "success" (body resp) = None.
Proof. repeat split. Qed.

(** C4. The engine returns on every input: when its [try] block raises
    it answers the base prediction unchanged, a factor_total of 1.0 and
    the text of the error as the only entry of the breakdown; POST
    /predict, given a province that is a string, then answers 200 with
    that breakdown in the body. *)
Theorem correccion_degrada {rt : Runtime} :
  (forall pat base provincia dia_semana es_vacaciones mes,
      (exists r,
          correccion pat base provincia dia_semana es_vacaciones mes = Ok r
          /\ aplicar_correccion_avanzada pat base provincia dia_semana
               es_vacaciones mes = r)
      \/ (exists e,
          correccion pat base provincia dia_semana es_vacaciones mes = Raise e
          /\ aplicar_correccion_avanzada pat base provincia dia_semana
               es_vacaciones mes
             = {| prediccion_corregida := base;
                  factores_aplicados := [("error", PStr (str_exn e))];
                  factor_total := 1 |}))
  /\ (forall env req data features df base s dia_semana es_vacaciones mes e,
      json req = Ok data -> truthy data = true ->
      features_de env = Ok features ->
      alinear features data = Ok df ->
      predecir env df = Ok base ->
      get data "provincia" (PStr "PICHINCHA") = Ok (PStr s) ->
      get data "dia_semana" (PInt 1) = Ok dia_semana ->
      get data "Es_Vacaciones" (PInt 0) = Ok es_vacaciones ->
      get data "Mes" (PInt 1) = Ok mes ->
      correccion (patrones env) base (PStr s) dia_semana es_vacaciones mes
      = Raise e ->
      status (predict env req) = 200%Z
      /\ campo "prediccion" "afluencia" (body (predict env req))
         = Some (PFloat (Round.round base 2))
      /\ campo "detalles" "factores_aplicados" (body (predict env req))
         = Some (PDict [("error", PStr (str_exn e))])
      /\ campo "detalles" "factor_total" (body (predict env req))
         = Some (PFloat 1)).
Proof.
  split.
  - intros pat base provincia dia_semana es_vacaciones mes.
    unfold aplicar_correccion_avanzada.
    destruct (correccion pat base provincia dia_semana es_vacaciones mes)
      as [r | e]; [left | right]; eauto.
  - intros env req data features df base s dia_semana es_vacaciones mes e
      Hj Ht Hf Ha Hm Hp Hd Hv Hmes He.
    rewrite (predict_200_intro env req data features df base (PStr s)
               dia_semana es_vacaciones mes (str_upper s)
               Hj Ht Hf Ha Hm Hp Hd Hv Hmes eq_refl).
    unfold aplicar_correccion_avanzada. rewrite He.
    repeat split.
Qed.

Lemma correccion_degrada_witness :
  correccion (rt := ascii_runtime) patrones_malformados 20
    (PStr "PICHINCHA") (PInt 1) (PInt 0) (PInt 1)
  = Raise (AttributeError "float" "get")
  /\ status (predict (rt := ascii_runtime) env_malformado
               (peticion datos_temperatura)) = 200%Z
  /\ campo "detalles" "factores_aplicados"
       (body (predict (rt := ascii_runtime) env_malformado
                (peticion datos_temperatura)))
     = Some (PDict [("error", PStr "'float' object has no attribute 'get'")]).
Proof.
  assert (He : correccion (rt := ascii_runtime) patrones_malformados 20
                 (PStr "PICHINCHA") (PInt 1) (PInt 0) (PInt 1)
               = Raise (AttributeError "float" "get"))
    by (vm_compute; reflexivity).
  split; [exact He|].
  destruct (proj2 (correccion_degrada (rt := ascii_runtime))
              env_malformado (peticion datos_temperatura) datos_temperatura
              ["Mes"; "temperatura"; "dia_semana"]
              [("Mes", PInt 0); ("temperatura", PFloat 21.5);
               ("dia_semana", PInt 0)]
              20%float "PICHINCHA" (PInt 1) (PInt 0) (PInt 1)
              (AttributeError "float" "get")
              eq_refl eq_refl eq_refl eq_refl eq_refl eq_refl eq_refl
              eq_refl eq_refl He) as (H1 & _ & H3 & _).
  split; assumption.
Defined.

(** A province that is not a string makes the engine fall back and the
    handler answer 400. *)
Lemma predict_provincia_no_texto :
  correccion (rt := ascii_runtime) patrones_ejemplo 20
    (PInt 5) (PInt 1) (PInt 0) (PInt 1)
  = Raise (AttributeError "int" "upper")
  /\ status (predict (rt := ascii_runtime) (env_ejemplo 20)
               (peticion (PDict [("provincia", PInt 5)]))) = 400%Z
  /\ lookup "error"
       (body (predict (rt := ascii_runtime) (env_ejemplo 20)
                (peticion (PDict [("provincia", PInt 5)]))))
     = Some (PStr "Error en predicción: 'int' object has no attribute 'upper'").
Proof. vm_compute. repeat split. Qed.

Lemma dict_set_not_nil {V} (k : string) (v : V) (d : list (string * V)) :
  dict_set k v d <> [].
Proof.
  destruct d as [| [k' v'] d]; cbn; [discriminate|].
  destruct (String.eqb k k'); discriminate.
Qed.

Lemma truthy_dict (d : list (string * pyval)) :
  d <> [] -> truthy (PDict d) = true.
Proof. destruct d; [contradiction | reflexivity]. Qed.

(** A field the schema does not name has no part in the aligned row. *)
Lemma alinear_dict_set (features : list string) (k : string) (v : pyval)
    (d : list (string * pyval)) :
  ~ In k features ->
  alinear features (PDict (dict_set k v d)) = alinear features (PDict d).
Proof.
  intros Hk. rewrite !alinear_eq. f_equal. apply map_ext_in.
  intros f Hin. unfold valor_alineado. cbn [data_frame].
  rewrite lookup_dict_set_other; [reflexivity|].
  intros ->. contradiction.
Qed.

Lemma get_dict_set_other (k k' : string) (v default : pyval)
    (d : list (string * pyval)) :
  k <> k' ->
  get (PDict (dict_set k' v d)) k default = get (PDict d) k default.
Proof.
  intros Hne. cbn [get]. now rewrite (lookup_dict_set_other _ _ _ _ Hne).
Qed.

(** The same request, with no [Es_Vacaciones], is given the band ALTA by
    POST /predict and MUY ALTA by POST /predict/simple (the first
    categorizes the corrected value, the second the rounded one); and a
    request whose province is a number is answered 400 by the first and
    200 by the second. *)
Lemma predict_simple_otra_respuesta :
  (status (predict (rt := ascii_runtime) (env_ejemplo 34.996)
             (peticion datos_loja)) = 200%Z
   /\ status (predict_simple (rt := ascii_runtime) (env_ejemplo 34.996)
                (peticion datos_loja)) = 200%Z
   /\ campo "prediccion" "categoria"
        (body (predict (rt := ascii_runtime) (env_ejemplo 34.996)
                 (peticion datos_loja))) = Some (PStr "ALTA")
   /\ lookup "categoria"
        (body (predict_simple (rt := ascii_runtime) (env_ejemplo 34.996)
                 (peticion datos_loja))) = Some (PStr "MUY ALTA"))
  /\ (status (predict (rt := ascii_runtime) (env_ejemplo 20)
                (peticion (PDict [("provincia", PInt 5)]))) = 400%Z
      /\ status (predict_simple (rt := ascii_runtime) (env_ejemplo 20)
                   (peticion (PDict [("provincia", PInt 5)]))) = 200%Z).
Proof. vm_compute. repeat split. Qed.

(** C9. POST /predict/simple runs the alignment, the model call and the
    correction engine of POST /predict with the holiday flag of the
    engine fixed to 0, whatever [Es_Vacaciones] the request carries: a
    200 answer is exactly [afluencia] (the corrected value rounded to 2
    decimals, its holiday factor being 1.0), [categoria] (the band of
    that reported value) and [success: true]; it succeeds whenever POST
    /predict does and reports the same [afluencia] when the request has
    no true [Es_Vacaciones]; and setting [Es_Vacaciones] in a non-empty
    record changes nothing to its answer unless the schema names that
    field as a feature of the model. *)
Theorem predict_simple_pipeline {rt : Runtime} (env : Env) (req : Request) :
  (status (predict_simple env req) = 200%Z ->
   exists data features df base provincia dia_semana mes,
     json req = Ok data
     /\ features_de env = Ok features
     /\ alinear features data = Ok df
     /\ predecir env df = Ok base
     /\ get data "provincia" (PStr "PICHINCHA") = Ok provincia
     /\ get data "dia_semana" (PInt 1) = Ok dia_semana
     /\ get data "Mes" (PInt 1) = Ok mes
     /\ let r := aplicar_correccion_avanzada (patrones env) base
                   provincia dia_semana (PInt 0) mes in
        let afluencia := Round.round (prediccion_corregida r) 2 in
        body (predict_simple env req)
        = [ ("afluencia", PFloat afluencia);
            ("categoria", PStr (categoria (categorizar_afluencia afluencia)));
            ("success", PBool true) ]
        /\ (forall r',
              correccion (patrones env) base provincia dia_semana (PInt 0) mes
              = Ok r' ->
              r = r'
              /\ lookup "vacaciones" (factores_aplicados r')
                 = Some (PFloat 1)))
  /\ (status (predict env req) = 200%Z ->
      status (predict_simple env req) = 200%Z
      /\ forall data es_vacaciones,
           json req = Ok data ->
           get data "Es_Vacaciones" (PInt 0) = Ok es_vacaciones ->
           truthy es_vacaciones = false ->
           exists a,
             campo "prediccion" "afluencia" (body (predict env req))
             = Some (PFloat a)
             /\ lookup "afluencia" (body (predict_simple env req))
                = Some (PFloat a))
  /\ (forall d v,
      json req = Ok (PDict d) -> d <> [] ->
      (forall info, features_info env = Some info ->
                    ~ In "Es_Vacaciones" (features info)) ->
      predict_simple env
        {| json := Ok (PDict (dict_set "Es_Vacaciones" v d)); now := now req |}
      = predict_simple env req).
Proof.
  split; [|split].
  - intros H. apply predict_simple_200_inv in H.
    destruct H as (data & features & df & base & provincia & dia_semana & mes
                   & Hj & Ht & Hf & Ha & Hm & Hp & Hd & Hmes).
    exists data, features, df, base, provincia, dia_semana, mes.
    repeat (split; [assumption|]).
    rewrite (predict_simple_200_intro _ _ _ _ _ _ _ _ _
               Hj Ht Hf Ha Hm Hp Hd Hmes).
    cbv zeta. split; [reflexivity|].
    intros r' Hr'. unfold aplicar_correccion_avanzada. rewrite Hr'.
    split; [reflexivity|].
    apply correccion_ok in Hr'.
    destruct Hr' as (fp & fd & P & D & E & _ & _ & _ & Hfs & _).
    rewrite Hfs. reflexivity.
  - intros H. apply predict_200_inv in H.
    destruct H as (data & features & df & base & provincia & dia_semana
                   & es_vacaciones & mes & u
                   & Hj & Ht & Hf & Ha & Hm & Hp & Hd & Hv & Hmes & Hu).
    rewrite (predict_simple_200_intro _ _ _ _ _ _ _ _ _
               Hj Ht Hf Ha Hm Hp Hd Hmes).
    split; [reflexivity|].
    intros data' vac' Hj' Hv' Hfalse.
    rewrite Hj in Hj'. injection Hj' as <-.
    rewrite Hv in Hv'. injection Hv' as <-.
    rewrite (predict_200_intro _ _ _ _ _ _ _ _ _ _ _
               Hj Ht Hf Ha Hm Hp Hd Hv Hmes Hu).
    cbv zeta. rewrite (aplicar_correccion_flag_falso _ _ _ _ _ _ Hfalse).
    eexists. split; reflexivity.
  - intros d v Hj Hd Hfeat. destruct req as [j t]. cbn [json now] in *.
    subst j. unfold predict_simple, predict_simple_try. cbn [json bind].
    rewrite (truthy_dict _ (dict_set_not_nil _ v d)), (truthy_dict _ Hd).
    cbn [negb]. unfold features_de.
    destruct (features_info env) as [info |] eqn:Hinfo; [|reflexivity].
    cbn [bind]. rewrite (alinear_dict_set _ _ _ _ (Hfeat info eq_refl)).
    destruct (alinear (features info) (PDict d)) as [df | e]; [|reflexivity].
    cbn [bind]. destruct (predecir env df) as [base | e]; [|reflexivity].
    cbn [bind]. rewrite !get_dict_set_other by discriminate.
    reflexivity.
Qed.

Lemma predict_simple_pipeline_witness :
  status (predict (rt := ascii_runtime) (env_ejemplo 20) (peticion datos_loja))
  = 200%Z
  /\ status (predict_simple (rt := ascii_runtime) (env_ejemplo 20)
               (peticion datos_loja)) = 200%Z
  /\ predict_simple (rt := ascii_runtime) (env_ejemplo 20)
       (peticion (PDict [ ("provincia", PStr "Loja"); ("dia_semana", PInt 1);
                          ("Mes", PInt 11); ("Es_Vacaciones", PInt 1) ]))
     = predict_simple (rt := ascii_runtime) (env_ejemplo 20)
         (peticion datos_loja).
Proof.
  assert (H : status (predict (rt := ascii_runtime) (env_ejemplo 20)
                        (peticion datos_loja)) = 200%Z)
    by (vm_compute; reflexivity).
  split; [exact H|].
  destruct (predict_simple_pipeline (rt := ascii_runtime) (env_ejemplo 20)
              (peticion datos_loja)) as (_ & H2 & H3).
  split.
  - exact (proj1 (H2 H)).
  - apply (H3 [("provincia", PStr "Loja"); ("dia_semana", PInt 1);
               ("Mes", PInt 11)] (PInt 1) eq_refl).
    + discriminate.
    + intros info [= <-]. cbn. intros [H' | [H' | [H' | []]]]; discriminate H'.
Defined.

(** ** Further properties of the correction engine *)

(** On both paths of the engine the corrected value is the base value
    times the reported [factor_total]: the fallback reports 1.0 and
    returns the base value itself. *)
Theorem correccion_siempre_producto {rt : Runtime} (pat : pyval) (base : float)
    (provincia dia_semana es_vacaciones mes : pyval) :
  let r := aplicar_correccion_avanzada pat base provincia dia_semana
             es_vacaciones mes in
  prediccion_corregida r = (base * factor_total r)%float.
Proof.
  cbv zeta. unfold aplicar_correccion_avanzada.
  destruct (correccion pat base provincia dia_semana es_vacaciones mes)
    as [r | e] eqn:H.
  - apply correccion_ok in H.
    destruct H as (fp & fd & P & D & E & _ & _ & _ & _ & _ & Hc & _).
    exact Hc.
  - cbn. now rewrite mul_1_r.
Qed.

(** Without one of the two tables (document not loaded, not an object,
    or lacking the key) every request gets the identity correction. *)
Theorem correccion_sin_tabla {rt : Runtime} (pat : pyval) (base : float)
    (provincia dia_semana es_vacaciones mes : pyval) :
  (forall t, getitem pat "PATRONES_PROVINCIA" <> Ok t)
  \/ (forall t, getitem pat "PATRONES_DIA_SEMANA" <> Ok t) ->
  exists e,
    aplicar_correccion_avanzada pat base provincia dia_semana es_vacaciones mes
    = {| prediccion_corregida := base;
         factores_aplicados := [("error", PStr (str_exn e))];
         factor_total := 1 |}.
Proof.
  intros Hno. unfold aplicar_correccion_avanzada.
  destruct (correccion pat base provincia dia_semana es_vacaciones mes)
    as [r | e] eqn:H; [exfalso | now exists e].
  unfold correccion in H.
  bind_inv H as st1 H1. bind_inv H as st2 H2.
  destruct Hno as [Hno | Hno].
  - unfold correccion_provincia in H1.
    bind_inv H1 as u Hu. bind_inv H1 as tabla Ht. exact (Hno _ Ht).
  - unfold correccion_dia_semana in H2. destruct st1 as [fs ft].
    bind_inv H2 as tabla Ht. exact (Hno _ Ht).
Qed.

Lemma correccion_sin_tabla_witness :
  (forall t, getitem PNone "PATRONES_PROVINCIA" <> Ok t)
  /\ exists e,
       aplicar_correccion_avanzada (rt := ascii_runtime) PNone 20
         (PStr "Loja") (PInt 1) (PInt 0) (PInt 7)
       = {| prediccion_corregida := 20;
            factores_aplicados := [("error", PStr (str_exn e))];
            factor_total := 1 |}.
Proof.
  assert (H : forall t, getitem PNone "PATRONES_PROVINCIA" <> Ok t)
    by (intros t; discriminate).
  split; [exact H|].
  exact (correccion_sin_tabla (rt := ascii_runtime) PNone 20
           (PStr "Loja") (PInt 1) (PInt 0) (PInt 7) (or_introl H)).
Defined.

(** The engine reads its four inputs through [upper()], [str()], the
    truth value and the seasonal lookup only: inputs that agree on those
    get the same result (province case, weekday 5 or ['5'], flag 1 or
    [True], month 7 or 7.0). *)
Theorem correccion_observa {rt : Runtime} (pat : pyval) (base : float)
    (p1 p2 d1 d2 v1 v2 m1 m2 : pyval) :
  upper p1 = upper p2 ->
  str d1 = str d2 ->
  truthy v1 = truthy v2 ->
  get_estacional m1 = get_estacional m2 ->
  aplicar_correccion_avanzada pat base p1 d1 v1 m1
  = aplicar_correccion_avanzada pat base p2 d2 v2 m2.
Proof.
  intros Hp Hd Hv Hm.
  unfold aplicar_correccion_avanzada, correccion.
  assert (Ep : forall st, correccion_provincia pat p1 st
                          = correccion_provincia pat p2 st).
  { intros [fs ft]. unfold correccion_provincia. now rewrite Hp. }
  assert (Ed : forall st, correccion_dia_semana pat d1 st
                          = correccion_dia_semana pat d2 st).
  { intros [fs ft]. unfold correccion_dia_semana. now rewrite Hd. }
  assert (Ev : forall st, correccion_vacaciones v1 st
                          = correccion_vacaciones v2 st).
  { intros [fs ft]. unfold correccion_vacaciones. now rewrite Hv. }
  assert (Em : forall st, correccion_estacional m1 st
                          = correccion_estacional m2 st).
  { intros [fs ft]. unfold correccion_estacional. now rewrite Hm. }
  rewrite Ep.
  destruct (correccion_provincia pat p2 _) as [st1 | e]; [|reflexivity].
  cbn [bind]. rewrite Ed.
  destruct (correccion_dia_semana pat d2 st1) as [st2 | e]; [|reflexivity].
  cbn [bind]. now rewrite Ev, Em.
Qed.

Lemma correccion_observa_witness :
  upper (rt := ascii_runtime) (PStr "pichincha")
  = upper (rt := ascii_runtime) (PStr "PICHINCHA")
  /\ aplicar_correccion_avanzada (rt := ascii_runtime) patrones_ejemplo 20
       (PStr "pichincha") (PInt 5) (PInt 1) (PInt 7)
     = aplicar_correccion_avanzada (rt := ascii_runtime) patrones_ejemplo 20
         (PStr "PICHINCHA") (PStr "5") (PBool true) (PFloat 7).
Proof.
  assert (H : upper (rt := ascii_runtime) (PStr "pichincha")
              = upper (rt := ascii_runtime) (PStr "PICHINCHA"))
    by reflexivity.
  split; [exact H|].
  apply (correccion_observa (rt := ascii_runtime) patrones_ejemplo 20
           _ _ _ _ _ _ _ _ H); [reflexivity | reflexivity |].
  vm_compute. reflexivity.
Defined.

Lemma has_key_lookup {V} (k : string) (d : list (string * V)) :
  has_key k d = true -> exists v, lookup k d = Some v.
Proof. unfold has_key. destruct (lookup k d); [eauto | discriminate]. Qed.

Lemma lookup_In {V} (k : string) (v : V) (d : list (string * V)) :
  lookup k d = Some v -> In (k, v) d.
Proof.
  induction d as [| [k' v'] d IH]; cbn; [discriminate|].
  destruct (String.eqb k k') eqn:E.
  - apply String.eqb_eq in E. intros [= ->]. subst. now left.
  - intros H. right. now apply IH.
Qed.

Lemma mul_float_as_float (x : float) (v : pyval) (f : float) :
  as_float v = Some f -> mul_float x v = Ok (x * f)%float.
Proof.
  destruct v as [ | b | z | g | s | l | d]; cbn; try discriminate.
  - now intros [= <-].
  - now intros ->.
  - now intros [= <-].
Qed.

(** A step of the engine on a well-formed table never raises. *)
Lemma paso_tabla_bien_formada (clave : string) (tabla : pyval) (u : string)
    (ft : float) :
  tabla_bien_formada clave tabla = true ->
  exists presente,
    contains u tabla = Ok presente
    /\ (presente = true ->
        exists entrada factor ft',
          getitem tabla u = Ok entrada
          /\ get entrada clave (PFloat 1) = Ok factor
          /\ mul_float ft factor = Ok ft').
Proof.
  destruct tabla as [ | | | | | | d]; try discriminate.
  cbn [tabla_bien_formada]. intros Hwf.
  exists (has_key u d). split; [reflexivity|].
  intros Hk. apply has_key_lookup in Hk. destruct Hk as (entrada & Hl).
  assert (He : entrada_bien_formada clave entrada = true).
  { rewrite forallb_forall in Hwf. apply (Hwf (u, entrada)).
    now apply lookup_In. }
  destruct entrada as [ | | | | | | de]; try discriminate.
  cbn [entrada_bien_formada] in He.
  destruct (lookup clave de) as [v |] eqn:Hlk.
  - destruct (as_float v) as [f |] eqn:Hf; [|discriminate].
    exists (PDict de), v, (ft * f)%float. cbn [getitem get].
    rewrite Hl, Hlk. repeat split. now apply mul_float_as_float.
  - exists (PDict de), (PFloat 1), (ft * 1)%float. cbn [getitem get].
    rewrite Hl, Hlk. repeat split.
Qed.

(** With a well-formed correction document, a province that is a
    string, a weekday whose [str] is within the interpreter's limits and
    a month that can be looked up, the engine takes its normal path: the
    breakdown it returns has no [error] entry. *)
Theorem correccion_bien_formada {rt : Runtime} (pat : pyval) (base : float)
    (s : string) (dia_semana es_vacaciones mes : pyval) :
  patrones_bien_formados pat = true ->
  str_sin_limite dia_semana = true ->
  hashable mes = true ->
  exists r,
    correccion pat base (PStr s) dia_semana es_vacaciones mes = Ok r
    /\ aplicar_correccion_avanzada pat base (PStr s) dia_semana
         es_vacaciones mes = r
    /\ lookup "error" (factores_aplicados r) = None.
Proof.
  intros Hwf _ Hmes.
  destruct pat as [ | | | | | | d0]; try discriminate.
  cbn [patrones_bien_formados] in Hwf.
  destruct (lookup "PATRONES_PROVINCIA" d0) as [tp |] eqn:Htp; [|discriminate].
  destruct (lookup "PATRONES_DIA_SEMANA" d0) as [td |] eqn:Htd; [|discriminate].
  apply andb_prop in Hwf. destruct Hwf as [Hp Hd].
  assert (Hst1 : exists st1,
             correccion_provincia (PDict d0) (PStr s) (factores_iniciales, 1%float)
             = Ok st1).
  { unfold correccion_provincia. cbn [upper bind getitem]. rewrite Htp.
    cbn [bind].
    destruct (paso_tabla_bien_formada _ _ (str_upper s) 1%float Hp)
      as (presente & Hc & Hm).
    rewrite Hc. cbn [bind]. destruct presente; [|eauto].
    destruct (Hm eq_refl) as (entrada & factor & ft' & Hg & Hget & Hmul).
    rewrite Hg. cbn [bind]. rewrite Hget. cbn [bind]. rewrite Hmul.
    cbn [bind]. eauto. }
  destruct Hst1 as (st1 & H1).
  assert (Hst2 : exists st2,
             correccion_dia_semana (PDict d0) dia_semana st1 = Ok st2).
  { destruct st1 as [fs ft]. unfold correccion_dia_semana.
    cbn [getitem]. rewrite Htd. cbn [bind].
    destruct (paso_tabla_bien_formada _ _ (str dia_semana) ft Hd)
      as (presente & Hc & Hm).
    rewrite Hc. cbn [bind]. destruct presente; [|eauto].
    destruct (Hm eq_refl) as (entrada & factor & ft' & Hg & Hget & Hmul).
    rewrite Hg. cbn [bind]. rewrite Hget. cbn [bind]. rewrite Hmul.
    cbn [bind]. eauto. }
  destruct Hst2 as (st2 & H2).
  assert (HE : exists E, get_estacional mes = Ok E).
  { destruct mes; try discriminate; cbn; eauto. }
  destruct HE as (E & HE).
  assert (Hr : exists r, correccion (PDict d0) base (PStr s) dia_semana
                           es_vacaciones mes = Ok r).
  { unfold correccion. rewrite H1. cbn [bind]. rewrite H2. cbn [bind].
    destruct (correccion_vacaciones es_vacaciones st2) as [fs ft].
    unfold correccion_estacional. rewrite HE. cbn [bind]. eauto. }
  destruct Hr as (r & Hr). exists r. split; [exact Hr|].
  split; [unfold aplicar_correccion_avanzada; now rewrite Hr|].
  apply correccion_ok in Hr.
  destruct Hr as (fp & fd & P & D & E' & _ & _ & _ & Hf & _).
  now rewrite Hf.
Qed.

Lemma correccion_bien_formada_witness :
  patrones_bien_formados patrones_ejemplo = true
  /\ str_sin_limite (PInt 6) = true
  /\ lookup "error"
       (factores_aplicados
          (aplicar_correccion_avanzada (rt := ascii_runtime) patrones_ejemplo
             20 (PStr "Guayas") (PInt 6) (PInt 0) (PInt 12))) = None.
Proof.
  assert (H : patrones_bien_formados patrones_ejemplo = true) by reflexivity.
  assert (Hd : str_sin_limite (PInt 6) = true) by (vm_compute; reflexivity).
  split; [exact H|]. split; [exact Hd|].
  destruct (correccion_bien_formada (rt := ascii_runtime) patrones_ejemplo 20
              "Guayas" (PInt 6) (PInt 0) (PInt 12) H Hd eq_refl)
    as (r & _ & Hr & Herr).
  rewrite Hr. exact Herr.
Defined.

(** A matched entry that has no factor key counts as 1.0: the running
    product keeps its value and the breakdown shows 1.0. *)
Theorem correccion_entrada_sin_factor {rt : Runtime} (pat : pyval)
    (fs : list (string * pyval)) (ft : float) :
  (forall s d e,
      getitem pat "PATRONES_PROVINCIA" = Ok (PDict d) ->
      lookup (str_upper s) d = Some (PDict e) ->
      lookup "factor_base" e = None ->
      correccion_provincia pat (PStr s) (fs, ft)
      = Ok (dict_set "provincia" (PFloat 1) fs, ft))
  /\ (forall dia_semana d e,
      getitem pat "PATRONES_DIA_SEMANA" = Ok (PDict d) ->
      lookup (str dia_semana) d = Some (PDict e) ->
      lookup "factor" e = None ->
      correccion_dia_semana pat dia_semana (fs, ft)
      = Ok (dict_set "dia_semana" (PFloat 1) fs, ft)).
Proof.
  split.
  - intros s d e Ht Hl He. unfold correccion_provincia.
    cbn [upper bind]. rewrite Ht. cbn [bind contains].
    unfold has_key. rewrite Hl. cbn [bind getitem]. rewrite Hl.
    cbn [bind get]. rewrite He. cbn [bind mul_float].
    now rewrite mul_1_r.
  - intros dia_semana d e Ht Hl He. unfold correccion_dia_semana.
    rewrite Ht. cbn [bind contains].
    unfold has_key. rewrite Hl. cbn [bind getitem]. rewrite Hl.
    cbn [bind get]. rewrite He. cbn [bind mul_float].
    now rewrite mul_1_r.
Qed.

Lemma correccion_entrada_sin_factor_witness :
  correccion_provincia (rt := ascii_runtime)
    (PDict [("PATRONES_PROVINCIA", PDict [("LOJA", PDict [])])])
    (PStr "Loja") (factores_iniciales, 1.2%float)
  = Ok (factores_iniciales, 1.2%float).
Proof.
  apply (proj1 (correccion_entrada_sin_factor (rt := ascii_runtime)
                  (PDict [("PATRONES_PROVINCIA", PDict [("LOJA", PDict [])])])
                  factores_iniciales 1.2%float)
           "Loja" [("LOJA", PDict [])] []); reflexivity.
Defined.

(** ** Further properties of the handlers *)

Lemma is_none_true {A} (o : option A) : is_none o = true <-> o = None.
Proof. destruct o; cbn; split; congruence. Qed.

(** POST /predict answers 200, 400 or 500; it answers 500 exactly when
    the model or the schema is not loaded, whatever the request; and its
    body has an [error] field exactly when the status is not 200. *)
Theorem predict_status {rt : Runtime} (env : Env) (req : Request) :
  (status (predict env req) = 200%Z \/ status (predict env req) = 400%Z
   \/ status (predict env req) = 500%Z)
  /\ (status (predict env req) = 500%Z
      <-> modelo env = None \/ features_info env = None)
  /\ (has_key "error" (body (predict env req)) = true
      <-> status (predict env req) <> 200%Z).
Proof.
  unfold predict, predict_try.
  destruct (is_none (modelo env) || is_none (features_info env)) eqn:Hn.
  { cbn. apply orb_prop in Hn. rewrite !is_none_true in Hn.
    repeat split; auto; discriminate. }
  apply orb_false_elim in Hn. destruct Hn as [Hm Hf].
  assert (Hload : ~ (modelo env = None \/ features_info env = None)).
  { rewrite <- !is_none_true. intros [H | H]; congruence. }
  assert (Hgoal : forall r : Response,
             (status r = 200%Z /\ has_key "error" (body r) = false)
             \/ (status r = 400%Z /\ has_key "error" (body r) = true) ->
             (status r = 200%Z \/ status r = 400%Z \/ status r = 500%Z)
             /\ (status r = 500%Z
                 <-> modelo env = None \/ features_info env = None)
             /\ (has_key "error" (body r) = true <-> status r <> 200%Z)).
  { intros r [[Hs Hb] | [Hs Hb]]; rewrite Hs, Hb;
      repeat split; auto; try discriminate; try tauto; try congruence. }
  apply Hgoal.
  destruct (json req) as [data | e]; cbn [bind]; [|right; split; reflexivity].
  destruct (truthy data); cbn [negb]; [|right; split; reflexivity].
  repeat match goal with
  | |- context [bind ?m _] =>
      destruct m; cbn [bind]; [|right; split; reflexivity]
  end.
  left. split; reflexivity.
Qed.

(** POST /predict/simple answers 200 or 400 and never 500; its body has
    an [error] field exactly when the status is not 200, and a [success]
    field that is true exactly on a 200. *)
Theorem predict_simple_status {rt : Runtime} (env : Env) (req : Request) :
  (status (predict_simple env req) = 200%Z
   \/ status (predict_simple env req) = 400%Z)
  /\ (has_key "error" (body (predict_simple env req)) = true
      <-> status (predict_simple env req) <> 200%Z)
  /\ (lookup "success" (body (predict_simple env req)) = Some (PBool true)
      <-> status (predict_simple env req) = 200%Z).
Proof.
  unfold predict_simple, predict_simple_try.
  assert (Hgoal : forall r : Response,
             (status r = 200%Z /\ has_key "error" (body r) = false
              /\ lookup "success" (body r) = Some (PBool true))
             \/ (status r = 400%Z /\ has_key "error" (body r) = true
                 /\ lookup "success" (body r) <> Some (PBool true)) ->
             (status r = 200%Z \/ status r = 400%Z)
             /\ (has_key "error" (body r) = true <-> status r <> 200%Z)
             /\ (lookup "success" (body r) = Some (PBool true)
                 <-> status r = 200%Z)).
  { intros r [(Hs & Hb & Hk) | (Hs & Hb & Hk)]; rewrite Hs, Hb;
      repeat split; auto; try discriminate; try tauto; try congruence. }
  apply Hgoal.
  destruct (json req) as [data | e]; cbn [bind];
    [|right; repeat split; discriminate].
  destruct (truthy data); cbn [negb]; [|right; repeat split; discriminate].
  repeat match goal with
  | |- context [bind ?m _] =>
      destruct m; cbn [bind]; [|right; repeat split; discriminate]
  end.
  left. repeat split.
Qed.

(** Aligning an aligned row again gives the same row. *)
Theorem alinear_idempotente (features : list string) (data : pyval)
    (row : DataFrame) :
  alinear features data = Ok row ->
  alinear features (PDict row) = Ok row.
Proof.
  rewrite alinear_eq. intros [= <-]. rewrite alinear_eq. apply f_equal.
  apply map_ext_in. intros f Hin. apply f_equal.
  unfold valor_alineado at 1. cbn [data_frame]. rewrite lookup_map_key.
  assert (E : existsb (String.eqb f) features = true).
  { apply existsb_exists. exists f. split; [exact Hin | apply String.eqb_refl]. }
  now rewrite E.
Qed.

Lemma alinear_idempotente_witness :
  alinear ["Mes"; "temperatura"; "dia_semana"] datos_loja
  = Ok [("Mes", PInt 11); ("temperatura", PInt 0); ("dia_semana", PInt 1)]
  /\ alinear ["Mes"; "temperatura"; "dia_semana"]
       (PDict [("Mes", PInt 11); ("temperatura", PInt 0);
               ("dia_semana", PInt 1)])
     = Ok [("Mes", PInt 11); ("temperatura", PInt 0); ("dia_semana", PInt 1)].
Proof.
  assert (H : alinear ["Mes"; "temperatura"; "dia_semana"] datos_loja
              = Ok [("Mes", PInt 11); ("temperatura", PInt 0);
                    ("dia_semana", PInt 1)]) by reflexivity.
  split; [exact H|].
  exact (alinear_idempotente _ _ _ H).
Defined.

(** The aligned row depends on the record through the schema's fields
    only: records that agree on them (whatever the order of their keys
    and whatever else they carry) give the same row. *)
Theorem alinear_solo_features (features : list string)
    (d1 d2 : list (string * pyval)) :
  (forall f, In f features -> lookup f d1 = lookup f d2) ->
  alinear features (PDict d1) = alinear features (PDict d2).
Proof.
  intros H. rewrite !alinear_eq. f_equal. apply map_ext_in.
  intros f Hin. unfold valor_alineado. cbn [data_frame].
  now rewrite (H f Hin).
Qed.

Lemma alinear_solo_features_witness :
  alinear ["Mes"; "temperatura"]
    (PDict [("temperatura", PFloat 21.5); ("Mes", PInt 3)])
  = alinear ["Mes"; "temperatura"]
      (PDict [("provincia", PStr "Loja"); ("Mes", PInt 3);
              ("temperatura", PFloat 21.5)]).
Proof.
  apply alinear_solo_features.
  intros f [<- | [<- | []]]; reflexivity.
Defined.

Lemma get_dict_set_default (k : string) (v : pyval)
    (d : list (string * pyval)) :
  lookup k d = None ->
  get (PDict (dict_set k v d)) k v = get (PDict d) k v.
Proof.
  intros H. cbn [get]. now rewrite lookup_dict_set_same, H.
Qed.

(** Leaving out one of the four optional fields is the same as sending
    its default (PICHINCHA, 1, 0, 1), for both endpoints, provided the
    record is not empty and the schema does not name the field as a
    feature of the model. *)
Theorem campo_omitido_por_defecto {rt : Runtime} (env : Env)
    (d : list (string * pyval)) (t : string) (k : string) (v : pyval) :
  In (k, v) campos_por_defecto ->
  lookup k d = None -> d <> [] ->
  (forall info, features_info env = Some info -> ~ In k (features info)) ->
  predict env {| json := Ok (PDict (dict_set k v d)); now := t |}
  = predict env {| json := Ok (PDict d); now := t |}
  /\ predict_simple env {| json := Ok (PDict (dict_set k v d)); now := t |}
     = predict_simple env {| json := Ok (PDict d); now := t |}.
Proof.
  intros Hk Hl Hd Hfeat.
  assert (Hal : forall info, features_info env = Some info ->
                  alinear (features info) (PDict (dict_set k v d))
                  = alinear (features info) (PDict d)).
  { intros info Hinfo. apply alinear_dict_set. now apply Hfeat. }
  unfold predict, predict_try, predict_simple, predict_simple_try.
  cbn [json now bind].
  rewrite (truthy_dict _ (dict_set_not_nil k v d)), (truthy_dict _ Hd).
  cbn [negb]. unfold features_de.
  destruct (features_info env) as [info |] eqn:Hinfo.
  2:{ rewrite orb_true_r. split; reflexivity. }
  cbn [bind]. rewrite (Hal info eq_refl).
  cbn in Hk.
  destruct Hk as [Hk | [Hk | [Hk | [Hk | []]]]]; injection Hk as <- <-;
    rewrite (get_dict_set_default _ _ _ Hl);
    rewrite ?get_dict_set_other by discriminate;
    split; reflexivity.
Qed.

Lemma campo_omitido_por_defecto_witness :
  In ("Mes", PInt 1) campos_por_defecto
  /\ predict (rt := ascii_runtime)
       {| modelo := Some (modelo_constante 20);
          features_info := Some {| features := ["temperatura"] |};
          patrones := patrones_ejemplo |}
       (peticion (PDict [("temperatura", PFloat 21.5); ("Mes", PInt 1)]))
     = predict (rt := ascii_runtime)
         {| modelo := Some (modelo_constante 20);
            features_info := Some {| features := ["temperatura"] |};
            patrones := patrones_ejemplo |}
         (peticion datos_temperatura).
Proof.
  assert (H : In ("Mes", PInt 1) campos_por_defecto)
    by (cbn; tauto).
  split; [exact H|].
  apply (campo_omitido_por_defecto (rt := ascii_runtime)
           {| modelo := Some (modelo_constante 20);
              features_info := Some {| features := ["temperatura"] |};
              patrones := patrones_ejemplo |}
           [("temperatura", PFloat 21.5)] "2024-01-01T00:00:00"
           "Mes" (PInt 1) H eq_refl).
  - discriminate.
  - intros info [= <-]. cbn. intros [H' | []]. discriminate H'.
Defined.

(** When the record has no [Mes] (or no [dia_semana]) and the schema
    names it, a successful POST /predict gives the model the value 0 for
    that column, while the correction engine is called with the default 1
    (so a normal run applies January's factor 1.1) and the details echo
    that 1: the reported [afluencia], breakdown and [factor_total] are
    those of the engine's result on the defaults. *)
Theorem campo_ausente_cero_y_defecto {rt : Runtime} (env : Env) (req : Request)
    (d : list (string * pyval)) (features : list string) :
  json req = Ok (PDict d) ->
  features_de env = Ok features ->
  status (predict env req) = 200%Z ->
  exists df base provincia dia_semana es_vacaciones mes,
    alinear features (PDict d) = Ok df
    /\ predecir env df = Ok base
    /\ get (PDict d) "provincia" (PStr "PICHINCHA") = Ok provincia
    /\ get (PDict d) "Es_Vacaciones" (PInt 0) = Ok es_vacaciones
    /\ get (PDict d) "dia_semana" (PInt 1) = Ok dia_semana
    /\ get (PDict d) "Mes" (PInt 1) = Ok mes
    /\ (let r := aplicar_correccion_avanzada (patrones env) base
                   provincia dia_semana es_vacaciones mes in
        campo "prediccion" "afluencia" (body (predict env req))
        = Some (PFloat (Round.round (prediccion_corregida r) 2))
        /\ campo "detalles" "factores_aplicados" (body (predict env req))
           = Some (PDict (factores_aplicados r))
        /\ campo "detalles" "factor_total" (body (predict env req))
           = Some (PFloat (Round.round (factor_total r) 3)))
    /\ (lookup "Mes" d = None ->
        mes = PInt 1
        /\ campo "detalles" "mes" (body (predict env req)) = Some (PInt 1)
        /\ (In "Mes" features -> lookup "Mes" df = Some (PInt 0))
        /\ (forall r',
              correccion (patrones env) base provincia dia_semana
                es_vacaciones mes = Ok r' ->
              lookup "estacional" (factores_aplicados r')
              = Some (PFloat 1.1)))
    /\ (lookup "dia_semana" d = None ->
        dia_semana = PInt 1
        /\ campo "detalles" "dia_semana" (body (predict env req))
           = Some (PInt 1)
        /\ (In "dia_semana" features ->
            lookup "dia_semana" df = Some (PInt 0))).
Proof.
  intros Hj Hf H. apply predict_200_inv in H.
  destruct H as (data & features' & df & base & provincia & dia_semana
                 & es_vacaciones & mes & u
                 & Hj' & Ht & Hf' & Ha & Hm & Hp & Hd & Hv & Hmes & Hu).
  rewrite Hj in Hj'. injection Hj' as <-.
  rewrite Hf in Hf'. injection Hf' as <-.
  exists df, base, provincia, dia_semana, es_vacaciones, mes.
  repeat (split; [assumption|]).
  rewrite (predict_200_intro _ _ _ _ _ _ _ _ _ _ _
             Hj Ht Hf Ha Hm Hp Hd Hv Hmes Hu).
  split; [cbv zeta; repeat split|].
  destruct (alinear_schema features (PDict d)) as (row & Hrow & _ & _ & Hval & _).
  rewrite Ha in Hrow. injection Hrow as <-.
  cbn [get] in Hd, Hmes. cbn [data_frame] in Hval.
  split.
  - intros Hnone. rewrite Hnone in Hmes. injection Hmes as <-.
    split; [reflexivity|]. split; [reflexivity|]. split.
    + intros Hin. rewrite (Hval _ Hin). now rewrite Hnone.
    + intros r' Hr'. apply correccion_ok in Hr'.
      destruct Hr' as (fp & fd & P & D & E & _ & _ & HE & Hfs & _).
      rewrite Hfs. cbn in HE. injection HE as <-. reflexivity.
  - intros Hnone. rewrite Hnone in Hd. injection Hd as <-.
    split; [reflexivity|]. split; [reflexivity|].
    intros Hin. rewrite (Hval _ Hin). now rewrite Hnone.
Qed.

Lemma campo_ausente_cero_y_defecto_witness :
  status (predict (rt := ascii_runtime) (env_ejemplo 20)
            (peticion datos_temperatura)) = 200%Z
  /\ campo "detalles" "mes"
       (body (predict (rt := ascii_runtime) (env_ejemplo 20)
                (peticion datos_temperatura))) = Some (PInt 1)
  /\ exists df,
       alinear ["Mes"; "temperatura"; "dia_semana"] datos_temperatura = Ok df
       /\ lookup "Mes" df = Some (PInt 0).
Proof.
  assert (H : status (predict (rt := ascii_runtime) (env_ejemplo 20)
                        (peticion datos_temperatura)) = 200%Z)
    by (vm_compute; reflexivity).
  split; [exact H|].
  destruct (campo_ausente_cero_y_defecto (rt := ascii_runtime) (env_ejemplo 20)
              (peticion datos_temperatura) [("temperatura", PFloat 21.5)]
              ["Mes"; "temperatura"; "dia_semana"] eq_refl eq_refl H)
    as (df & base & provincia & dia_semana & es_vacaciones & mes
        & Ha & _ & _ & _ & _ & _ & _ & Hmes & _).
  destruct (Hmes eq_refl) as (_ & H1 & H2 & _).
  split; [exact H1|].
  exists df. split; [exact Ha | apply H2; now left].
Defined.

Lemma predict_simple_round_trip_witness :
  status (predict_simple (rt := ascii_runtime) (env_ejemplo 34.996)
            (peticion datos_loja)) = 200%Z
  /\ exists a,
       lookup "afluencia"
         (body (predict_simple (rt := ascii_runtime) (env_ejemplo 34.996)
                  (peticion datos_loja))) = Some (PFloat a)
       /\ lookup "categoria"
            (body (predict_simple (rt := ascii_runtime) (env_ejemplo 34.996)
                     (peticion datos_loja)))
          = Some (PStr (categoria (categorizar_afluencia a))).
Proof.
  assert (H : status (predict_simple (rt := ascii_runtime) (env_ejemplo 34.996)
                        (peticion datos_loja)) = 200%Z)
    by (vm_compute; reflexivity).
  split; [exact H|].
  exact (predict_simple_round_trip (rt := ascii_runtime) _ _ H).
Defined.

(** Where POST /predict/simple answers 200, POST /predict answers 200
    too exactly when the province of the request is a string; with any
    other province the simple endpoint reports the uncorrected base
    prediction. *)
Theorem predict_simple_mas_permisivo {rt : Runtime} (env : Env) (req : Request)
    (data provincia : pyval) :
  json req = Ok data ->
  get data "provincia" (PStr "PICHINCHA") = Ok provincia ->
  status (predict_simple env req) = 200%Z ->
  (status (predict env req) = 200%Z <-> exists s, provincia = PStr s)
  /\ ((forall s, provincia <> PStr s) ->
      exists base df features,
        features_de env = Ok features
        /\ alinear features data = Ok df
        /\ predecir env df = Ok base
        /\ lookup "afluencia" (body (predict_simple env req))
           = Some (PFloat (Round.round base 2))).
Proof.
  intros Hj Hp H. apply predict_simple_200_inv in H.
  destruct H as (data' & features & df & base & provincia' & dia_semana & mes
                 & Hj' & Ht & Hf & Ha & Hm & Hp' & Hd & Hmes).
  rewrite Hj in Hj'. injection Hj' as <-.
  rewrite Hp in Hp'. injection Hp' as <-.
  assert (Hv : exists es_vacaciones,
             get data "Es_Vacaciones" (PInt 0) = Ok es_vacaciones).
  { destruct data; try discriminate Hp. cbn. eauto. }
  destruct Hv as (es_vacaciones & Hv).
  split; [split|].
  - intros H200. apply predict_200_inv in H200.
    destruct H200 as (data' & features' & df' & base' & provincia' & dia'
                      & vac' & mes' & u
                      & Hj' & _ & _ & _ & _ & Hp' & _ & _ & _ & Hu).
    rewrite Hj in Hj'. injection Hj' as <-.
    rewrite Hp in Hp'. injection Hp' as <-.
    destruct provincia; try discriminate Hu. eauto.
  - intros (s & ->).
    now rewrite (predict_200_intro env req data features df base (PStr s)
                   dia_semana es_vacaciones mes (str_upper s)
                   Hj Ht Hf Ha Hm Hp Hd Hv Hmes eq_refl).
  - intros Hno. exists base, df, features.
    repeat (split; [assumption|]).
    rewrite (predict_simple_200_intro _ _ _ _ _ _ _ _ _
               Hj Ht Hf Ha Hm Hp Hd Hmes).
    cbv zeta. cbn [body lookup String.eqb Ascii.eqb Bool.eqb].
    unfold aplicar_correccion_avanzada, correccion, correccion_provincia.
    destruct provincia; cbn; try reflexivity.
    exfalso. now apply (Hno s).
Qed.

Lemma predict_simple_mas_permisivo_witness :
  status (predict_simple (rt := ascii_runtime) (env_ejemplo 20)
            (peticion (PDict [("provincia", PInt 5)]))) = 200%Z
  /\ lookup "afluencia"
       (body (predict_simple (rt := ascii_runtime) (env_ejemplo 20)
                (peticion (PDict [("provincia", PInt 5)]))))
     = Some (PFloat 20).
Proof.
  assert (H : status (predict_simple (rt := ascii_runtime) (env_ejemplo 20)
                        (peticion (PDict [("provincia", PInt 5)]))) = 200%Z)
    by (vm_compute; reflexivity).
  split; [exact H|].
  destruct (proj2 (predict_simple_mas_permisivo (rt := ascii_runtime)
                     (env_ejemplo 20) (peticion (PDict [("provincia", PInt 5)]))
                     (PDict [("provincia", PInt 5)]) (PInt 5)
                     eq_refl eq_refl H))
    as (base & df & features & Hf & Ha & Hm & Hl).
  { intros s. discriminate. }
  vm_compute in Hm. injection Hm as <-. exact Hl.
Defined.

(** ** Start-up and the health report *)

(** Starting from nothing loaded: when [cargar_modelo] returns [False]
    the health report says [error]; when it returns [True] the globals
    hold what the three loads gave, and the report says [healthy] unless
    one of the loaded objects is itself [None]. *)
Theorem cargar_modelo_health (r : Recursos) (req : Request) :
  let ok := fst (cargar_modelo r env_sin_cargar) in
  let env := snd (cargar_modelo r env_sin_cargar) in
  (ok = false -> lookup "status" (body (health env req)) = Some (PStr "error"))
  /\ (ok = true ->
      cargar_pkl r = Ok (modelo env)
      /\ cargar_features r = Ok (features_info env)
      /\ cargar_patrones r = Ok (patrones env)
      /\ (lookup "status" (body (health env req)) = Some (PStr "healthy")
          <-> modelo env <> None /\ features_info env <> None
              /\ patrones env <> PNone)).
Proof.
  cbv zeta. unfold cargar_modelo.
  destruct (cargar_pkl r) as [m | e1]; [|split; [reflexivity | discriminate]].
  destruct (cargar_features r) as [info | e2]; cbn [fst snd].
  2:{ split; [intros _ | discriminate]. cbn. now destruct m. }
  destruct (cargar_patrones r) as [p | e3]; cbn [fst snd].
  2:{ split; [intros _ | discriminate]. cbn. now destruct m, info. }
  split; [discriminate | intros _].
  cbn [modelo features_info patrones].
  split; [reflexivity|]. split; [reflexivity|]. split; [reflexivity|].
  split.
  - intros Hh. destruct m, info, p; cbn in Hh; try discriminate Hh;
      repeat split; discriminate.
  - intros (Hm & Hi & Hp). destruct m, info, p; cbn; congruence.
Qed.

Lemma cargar_modelo_health_witness :
  fst (cargar_modelo recursos_sin_patrones env_sin_cargar) = false
  /\ lookup "status"
       (body (health (snd (cargar_modelo recursos_sin_patrones env_sin_cargar))
                (peticion PNone))) = Some (PStr "error").
Proof.
  assert (H : fst (cargar_modelo recursos_sin_patrones env_sin_cargar) = false)
    by reflexivity.
  split; [exact H|].
  exact (proj1 (cargar_modelo_health recursos_sin_patrones (peticion PNone)) H).
Defined.

(** A load that raises keeps what was assigned before it: when only the
    correction document fails to load, [cargar_modelo] returns [False]
    and the health report says [error], yet POST /predict is not answered
    500, and each of its 200 answers reports the base prediction as the
    [afluencia], with a [factor_total] of 1.0. *)
Theorem cargar_sin_patrones_predice {rt : Runtime} (r : Recursos)
    (m : Predictor) (info : FeaturesInfo) (e : exn) (req : Request) :
  cargar_pkl r = Ok (Some m) ->
  cargar_features r = Ok (Some info) ->
  cargar_patrones r = Raise e ->
  let env := snd (cargar_modelo r env_sin_cargar) in
  fst (cargar_modelo r env_sin_cargar) = false
  /\ modelo env = Some m /\ features_info env = Some info
  /\ status (predict env req) <> 500%Z
  /\ (status (predict env req) = 200%Z ->
      campo "prediccion" "afluencia" (body (predict env req))
      = campo "prediccion" "prediccion_base" (body (predict env req))
      /\ campo "detalles" "factor_total" (body (predict env req))
         = Some (PFloat 1)).
Proof.
  intros Hm Hi Hp. cbv zeta. unfold cargar_modelo. rewrite Hm, Hi, Hp.
  cbn [fst snd modelo features_info patrones env_sin_cargar].
  set (env := {| modelo := Some m; features_info := Some info;
                 patrones := PNone |}).
  repeat split.
  - intros H. apply (proj1 (proj1 (proj2 (predict_status env req)))) in H.
    destruct H as [H | H]; discriminate H.
  - apply predict_200_inv in H.
    destruct H as (data & features & df & base & provincia & dia_semana
                   & es_vacaciones & mes & u
                   & Hj & Ht & Hf & Ha & Hmo & Hpr & Hd & Hv & Hmes & Hu).
    rewrite (predict_200_intro _ _ _ _ _ _ _ _ _ _ _
               Hj Ht Hf Ha Hmo Hpr Hd Hv Hmes Hu).
    destruct (correccion_sin_tabla PNone base provincia dia_semana
                es_vacaciones mes) as (e' & He').
    { left. intros t. discriminate. }
    cbv zeta. cbn [patrones env]. rewrite He'. reflexivity.
  - apply predict_200_inv in H.
    destruct H as (data & features & df & base & provincia & dia_semana
                   & es_vacaciones & mes & u
                   & Hj & Ht & Hf & Ha & Hmo & Hpr & Hd & Hv & Hmes & Hu).
    rewrite (predict_200_intro _ _ _ _ _ _ _ _ _ _ _
               Hj Ht Hf Ha Hmo Hpr Hd Hv Hmes Hu).
    destruct (correccion_sin_tabla PNone base provincia dia_semana
                es_vacaciones mes) as (e' & He').
    { left. intros t. discriminate. }
    cbv zeta. cbn [patrones env]. rewrite He'. reflexivity.
Qed.

Lemma cargar_sin_patrones_predice_witness :
  cargar_patrones recursos_sin_patrones
  = Raise (External "patrones_correccion.json")
  /\ status (predict (rt := ascii_runtime)
               (snd (cargar_modelo recursos_sin_patrones env_sin_cargar))
               (peticion datos_loja)) = 200%Z
  /\ campo "detalles" "factor_total"
       (body (predict (rt := ascii_runtime)
                (snd (cargar_modelo recursos_sin_patrones env_sin_cargar))
                (peticion datos_loja))) = Some (PFloat 1).
Proof.
  assert (H : status (predict (rt := ascii_runtime)
                        (snd (cargar_modelo recursos_sin_patrones env_sin_cargar))
                        (peticion datos_loja)) = 200%Z)
    by (vm_compute; reflexivity).
  split; [reflexivity|]. split; [exact H|].
  destruct (cargar_sin_patrones_predice (rt := ascii_runtime)
              recursos_sin_patrones _ _ _ (peticion datos_loja)
              eq_refl eq_refl eq_refl) as (_ & _ & _ & _ & H200).
  exact (proj2 (H200 H)).
Defined.

(** The health report and the other endpoints: a [healthy] report means
    GET /features answers 200 and POST /predict is never answered 500;
    GET /features answers 500 exactly when no schema is loaded, and then
    POST /predict answers 500 and the report says [error]. *)
Theorem health_y_endpoints {rt : Runtime} (env : Env) (req req' : Request) :
  (lookup "status" (body (health env req)) = Some (PStr "healthy") ->
   features_status (get_features env) = 200%Z
   /\ status (predict env req') <> 500%Z)
  /\ (features_status (get_features env) = 500%Z
      <-> features_info env = None)
  /\ (features_status (get_features env) = 500%Z ->
      status (predict env req') = 500%Z
      /\ lookup "status" (body (health env req)) = Some (PStr "error"))
  /\ (forall info, features_body (get_features env) = inl info <->
                   features_info env = Some info).
Proof.
  pose proof (proj1 (proj2 (predict_status env req'))) as H500.
  assert (Hf500 : features_status (get_features env) = 500%Z
                  <-> features_info env = None).
  { unfold get_features. destruct (features_info env); cbn;
      split; congruence. }
  split; [|split; [exact Hf500 | split]].
  - intros Hh. unfold health in Hh. cbn in Hh.
    destruct (modelo env) as [m |] eqn:Hm; [|discriminate Hh].
    destruct (features_info env) as [info |] eqn:Hi; [|discriminate Hh].
    split.
    + unfold get_features. now rewrite Hi.
    + intros H. apply H500 in H. destruct H; discriminate.
  - intros H. apply Hf500 in H. split.
    + apply H500. now right.
    + unfold health. rewrite H. cbn.
      now destruct (is_none (modelo env)).
  - intros info. unfold get_features.
    destruct (features_info env); cbn; split; congruence.
Qed.

Lemma health_y_endpoints_witness :
  lookup "status" (body (health (env_ejemplo 20) (peticion PNone)))
  = Some (PStr "healthy")
  /\ status (predict (rt := ascii_runtime) (env_ejemplo 20) (peticion PNone))
     <> 500%Z.
Proof.
  assert (H : lookup "status" (body (health (env_ejemplo 20) (peticion PNone)))
              = Some (PStr "healthy")) by reflexivity.
  split; [exact H|].
  exact (proj2 (proj1 (health_y_endpoints (rt := ascii_runtime) (env_ejemplo 20)
                         (peticion PNone) (peticion PNone)) H)).
Defined.
